(** * Student dashboard page (client/src/pages/course/student/dashboard.tsx)

    A shallow embedding of the data transformations of the student
    dashboard: the derivation of calendar events from course tasks
    ([tasksToEvents], [createCourseEventFromTask]), the merge of fetched and
    derived events into the list of upcoming events, the classification of
    tasks into the completed / notDone / future buckets, the fetch effect
    with its loading flag, and the persisted display-count preference.

    Library functions the page calls (moment, String.prototype.localeCompare,
    Number) are not part of the repository; each is an interface, a type
    class, and every property names the facts about the library it uses. *)

From Stdlib Require Import ZArith List Bool Lia Sorted Permutation.
From Stdlib Require Import String Ascii DecimalString.
From stdpp Require Import base option gmap strings.
Import ListNotations.

Local Open Scope string_scope.
Local Open Scope list_scope.
Local Open Scope Z_scope.

(** ** Data model *)

(** Modelled from the spec: the interface [CourseTask] of services/course,
    with the fields the derivations of the page read.  The two student
    dates may be absent, hence the [as string] cast and the [|| '']
    fallback in the source. *)
Record CourseTask := mkCourseTask {
  task_id : Z;
  task_name : string;
  task_type : string;
  studentStartDate : option string;
  studentEndDate : option string;
  task_descriptionUrl : string
}.

(** Modelled from the spec: the interface [CourseEvent] of services/course,
    an id, a dateTime string and a nested descriptor with type, name and
    descriptionUrl. *)
Record EventInfo := mkEventInfo {
  event_type : string;
  event_name : string;
  event_descriptionUrl : string
}.

Record CourseEvent := mkCourseEvent {
  event_id : Z;
  dateTime : string;
  event : EventInfo
}.

(** [const TaskTypes = { deadline, test, newtask, lecture }] *)
Module TaskTypes.
Definition deadline : string := "deadline".
Definition test : string := "test".
Definition newtask : string := "newtask".
Definition lecture : string := "lecture".
End TaskTypes.

(** ** Event Deriver *)

(** [x || ''] on a [string | null] value: [null] and the empty string are
    both falsy. *)
Definition orEmpty (x : option string) : string :=
  match x with
  | Some s => if String.eqb s EmptyString then EmptyString else s
  | None => EmptyString
  end.

(** [createCourseEventFromTask(task, type)] *)
Definition createCourseEventFromTask (task : CourseTask) (type : string) : CourseEvent :=
  {| event_id := task_id task;
     dateTime := orEmpty (if String.eqb type TaskTypes.deadline
                          then studentEndDate task
                          else studentStartDate task);
     event := {| event_type := type;
                 event_name := task_name task;
                 event_descriptionUrl := task_descriptionUrl task |} |}.

(** The callback of the [reduce] in [tasksToEvents]; [acc.push(e)] appends
    [e] to the accumulator. *)
Definition pushTaskEvents (acc : list CourseEvent) (task : CourseTask) : list CourseEvent :=
  let acc1 :=
    if negb (String.eqb (task_type task) TaskTypes.test)
    then acc ++ [createCourseEventFromTask task (task_type task)]
    else acc in
  acc1 ++ [createCourseEventFromTask task
             (if String.eqb (task_type task) TaskTypes.test
              then TaskTypes.test else TaskTypes.deadline)].

(** [tasksToEvents(tasks)]: [tasks.reduce(..., [])]. *)
Definition tasksToEvents (tasks : list CourseTask) : list CourseEvent :=
  fold_left pushTaskEvents tasks [].

(** ** Library interfaces

    The page calls into moment.js, the string collation of the JavaScript
    runtime and the [Number] conversion.  None of them is code of this
    repository; each is an interface here, and each property below names
    the facts about the library it relies on. *)

(** moment.js.  [moment s] is [moment(s).valueOf()], the instant in
    milliseconds, or [None] when [moment(s)] is an invalid date;
    [startOfDay] and [endOfDay] are [startOf('day')] and [endOf('day')] on
    instants (the unit ['date'] is an alias of ['day']). *)
Class Moment := {
  moment : string -> option Z;
  startOfDay : Z -> Z;
  endOfDay : Z -> Z
}.

(** [a.localeCompare(b)]: negative, zero or positive. *)
Class Collation := {
  localeCompare : string -> string -> Z
}.

(** JavaScript numbers, as far as the preference reader needs them: the
    number denoted by an integer literal and the [StringToNumber]
    conversion [Number] applies to a string. *)
Class JsNumber := {
  number : Type;
  numberOfZ : Z -> number;
  StringToNumber : string -> number
}.

(** [moment(x)] on a [string | null] value: [moment(null)] is invalid. *)
Definition momentOf `{Moment} (x : option string) : option Z :=
  match x with
  | Some s => moment s
  | None => None
  end.

(** [this.isAfter(input)] without a unit: both valid and
    [input.valueOf() < this.valueOf()]. *)
Definition isAfter (this input : option Z) : bool :=
  match this, input with
  | Some a, Some b => b <? a
  | _, _ => false
  end.

(** [this.isAfter(input, 'date')]: both valid and
    [input.valueOf() < this.clone().startOf('date').valueOf()]. *)
Definition isAfterDate `{Moment} (this input : option Z) : bool :=
  match this, input with
  | Some a, Some b => b <? startOfDay a
  | _, _ => false
  end.

(** [this.isBefore(input, 'date')]: both valid and
    [this.clone().endOf('date').valueOf() < input.valueOf()]. *)
Definition isBeforeDate `{Moment} (this input : option Z) : bool :=
  match this, input with
  | Some a, Some b => endOfDay a <? b
  | _, _ => false
  end.

(** ** Event Merger *)

(** [Array.prototype.sort(compareFn)] is a stable sort: an element goes
    before the elements that followed it in the input unless the comparator
    says it is greater.  Insertion from the right computes that order. *)
Fixpoint insertSorted {A : Type} (compareFn : A -> A -> Z) (x : A) (l : list A) : list A :=
  match l with
  | [] => [x]
  | y :: l' =>
      if compareFn x y <=? 0 then x :: l else y :: insertSorted compareFn x l'
  end.

Definition arraySort {A : Type} (compareFn : A -> A -> Z) (l : list A) : list A :=
  fold_right (insertSorted compareFn) [] l.

(** The comparator of the page: [(a, b) => a.dateTime.localeCompare(b.dateTime)]. *)
Definition byDateTime `{Collation} (a b : CourseEvent) : Z :=
  localeCompare (dateTime a) (dateTime b).

(** [fetched.concat(derived).sort(...).filter(event =>
    moment(event.dateTime).isAfter(startOfToday))], where [startOfToday] is
    [moment().startOf('day')] and [now] the instant of the call. *)
Definition mergeEvents `{Moment} `{Collation} (now : Z)
    (fetched derived : list CourseEvent) : list CourseEvent :=
  let startOfToday := Some (startOfDay now) in
  List.filter (fun event => isAfter (moment (dateTime event)) startOfToday)
    (arraySort byDateTime (fetched ++ derived)).

(** The [nextEvents] of the fetch callback. *)
Definition computeNextEvents `{Moment} `{Collation} (now : Z)
    (courseEvents : list CourseEvent) (courseTasks : list CourseTask) : list CourseEvent :=
  mergeEvents now courseEvents (tasksToEvents courseTasks).

(** ** Exceptions *)

Inductive JsError :=
| TypeError (message : string).

(** The outcome of evaluating an expression that may throw. *)
Inductive Completion (A : Type) :=
| Normal (a : A)
| Throw (e : JsError).
Arguments Normal {A} a.
Arguments Throw {A} e.

Definition bindC {A B : Type} (c : Completion A) (k : A -> Completion B) : Completion B :=
  match c with
  | Normal a => k a
  | Throw e => Throw e
  end.

Notation "'let!' x ':=' c 'in' k" := (bindC c (fun x => k))
  (at level 10, x name, c at level 100, k at level 200).

(** [array.filter(callback)] with a callback that may throw: elements are
    visited in order and the first exception ends the traversal. *)
Fixpoint filterC {A : Type} (callback : A -> Completion bool) (l : list A)
    : Completion (list A) :=
  match l with
  | [] => Normal []
  | x :: l' =>
      let! keep := callback x in
      let! rest := filterC callback l' in
      Normal (if keep then x :: rest else rest)
  end.

(** ** Task Classifier *)

(** Modelled from the spec: an entry of [studentSummary.results], a
    reference to a course task by [courseTaskId] with its score. *)
Record TaskResult := mkTaskResult {
  courseTaskId : Z;
  result_score : Z
}.

(** Modelled from the spec: the interface [StudentSummary] of
    services/course.  [{} as StudentSummary], the initial state, has every
    property absent. *)
Record StudentSummary := mkStudentSummary {
  results : option (list TaskResult);
  totalScore : option Z;
  rank : option Z;
  isActive : option bool
}.

Definition emptySummary : StudentSummary :=
  {| results := None; totalScore := None; rank := None; isActive := None |}.

(** A property of an object literal: absent, [null], or a value. *)
Inductive JsField (A : Type) :=
| Undefined
| Null
| Value (a : A).
Arguments Undefined {A}.
Arguments Null {A}.
Arguments Value {A} a.

(** Modelled from the spec: the interface [StudentTasksDetail] of
    common/models, with the properties the page reads. *)
Record StudentTasksDetail := mkStudentTasksDetail {
  detail_name : string;
  detail_comment : JsField string;
  taskGithubPrUris : JsField (list string);
  detail_score : JsField Z
}.

(** [{ ...task, comment, githubPrUri, score }] *)
Record TaskStat := mkTaskStat {
  stat_task : CourseTask;
  comment : JsField string;
  githubPrUri : JsField (list string);
  score : JsField Z
}.

Definition undefinedFind : JsError :=
  TypeError "Cannot read properties of undefined (reading 'find')".

(** [checkTaskResults(results, taskId)]:
    [results.find(task => task.courseTaskId === taskId)].  The member
    access throws when [results] is absent. *)
Definition checkTaskResults (results : option (list TaskResult)) (taskId : Z)
    : Completion (option TaskResult) :=
  match results with
  | None => Throw undefinedFind
  | Some rs => Normal (List.find (fun task => courseTaskId task =? taskId) rs)
  end.

(** [!!x] on the outcome of [find]: an entry is an object, hence truthy;
    [undefined] is falsy. *)
Definition truthy {A : Type} (x : option A) : bool :=
  match x with
  | Some _ => true
  | None => false
  end.

(** The [map] callback of [tasksCompleted]:
    [tasksDetail.find(taskDetail => taskDetail.name === task.name) ?? {}]
    destructured into [comment], [taskGithubPrUris] and [score]. *)
Definition enrichCompleted (tasksDetail : list StudentTasksDetail) (task : CourseTask) : TaskStat :=
  match List.find (fun taskDetail => String.eqb (detail_name taskDetail) (task_name task)) tasksDetail with
  | Some d =>
      {| stat_task := task; comment := detail_comment d;
         githubPrUri := taskGithubPrUris d; score := detail_score d |}
  | None =>
      {| stat_task := task; comment := Undefined;
         githubPrUri := Undefined; score := Undefined |}
  end.

Definition tasksCompleted (results : option (list TaskResult))
    (courseTasks : list CourseTask) (tasksDetail : list StudentTasksDetail)
    : Completion (list TaskStat) :=
  let! kept := filterC (fun task =>
                 let! found := checkTaskResults results (task_id task) in
                 Normal (truthy found)) courseTasks in
  Normal (map (enrichCompleted tasksDetail) kept).

(** The filter callbacks of [tasksNotDone] and [tasksFuture]: [&&]
    evaluates [checkTaskResults] only when the date test holds. *)
Definition notDoneCallback `{Moment} (currentDate : string)
    (results : option (list TaskResult)) (task : CourseTask) : Completion bool :=
  if isBeforeDate (momentOf (studentEndDate task)) (moment currentDate)
  then let! found := checkTaskResults results (task_id task) in Normal (negb (truthy found))
  else Normal false.

Definition futureCallback `{Moment} (currentDate : string)
    (results : option (list TaskResult)) (task : CourseTask) : Completion bool :=
  if isAfterDate (momentOf (studentEndDate task)) (moment currentDate)
  then let! found := checkTaskResults results (task_id task) in Normal (negb (truthy found))
  else Normal false.

(** [currentDate] is the string [moment().format('YYYY MM DD')]. *)
Definition tasksNotDone `{Moment} (currentDate : string)
    (results : option (list TaskResult)) (courseTasks : list CourseTask)
    : Completion (list TaskStat) :=
  let! kept := filterC (notDoneCallback currentDate results) courseTasks in
  Normal (map (fun task => {| stat_task := task; comment := Null;
                              githubPrUri := Null; score := Value 0 |}) kept).

Definition tasksFuture `{Moment} (currentDate : string)
    (results : option (list TaskResult)) (courseTasks : list CourseTask)
    : Completion (list TaskStat) :=
  let! kept := filterC (futureCallback currentDate results) courseTasks in
  Normal (map (fun task => {| stat_task := task; comment := Null;
                              githubPrUri := Null; score := Null |}) kept).

Record TaskStatistics := mkTaskStatistics {
  completed : list TaskStat;
  notDone : list TaskStat;
  future : list TaskStat
}.

(** The three buckets are computed in this order on every render. *)
Definition taskStatistics `{Moment} (currentDate : string)
    (studentSummary : StudentSummary) (courseTasks : list CourseTask)
    (tasksDetail : list StudentTasksDetail) : Completion TaskStatistics :=
  let! c := tasksCompleted (results studentSummary) courseTasks tasksDetail in
  let! n := tasksNotDone currentDate (results studentSummary) courseTasks in
  let! f := tasksFuture currentDate (results studentSummary) courseTasks in
  Normal {| completed := c; notDone := n; future := f |}.

(** A task appears in a bucket when one of the bucket's entries spreads it. *)
Definition inBucket (task : CourseTask) (bucket : list TaskStat) : Prop :=
  In task (map stat_task bucket).

(** Some entry of the result list has [courseTaskId] equal to the task's id. *)
Definition hasResult (rs : list TaskResult) (task : CourseTask) : Prop :=
  exists r, In r rs /\ courseTaskId r = task_id task.

(** The boolean the three filters compute from a present result list. *)
Definition hasResultb (rs : list TaskResult) (task : CourseTask) : bool :=
  truthy (List.find (fun r => courseTaskId r =? task_id task) rs).

(** ** Remote Data Fetcher: the [useAsync] callback *)

(** Modelled from the spec: the profile statistics of services/user, per
    course; [studentStats] is optional. *)
Record StudentStats := mkStudentStats {
  courseId : Z;
  tasks : list StudentTasksDetail
}.

Record ProfileInfo := mkProfileInfo {
  studentStats : option (list StudentStats)
}.

(** The view state held by [useState], with the initial values of the
    source. *)
Record ViewState := mkViewState {
  studentSummary : StudentSummary;
  courseTasks : list CourseTask;
  tasksDetail : list StudentTasksDetail;
  nextEvents : list CourseEvent;
  loading : bool
}.

Definition initialView : ViewState :=
  {| studentSummary := emptySummary; courseTasks := []; tasksDetail := [];
     nextEvents := []; loading := false |}.

(** What the callback does that the user can observe, in order. *)
Inductive Effect :=
| SetLoading (value : bool)
| AwaitBatch
| MessageError (content : string).

Record World := mkWorld {
  view : ViewState;
  log : list Effect
}.

Definition initialWorld : World := {| view := initialView; log := [] |}.

Definition setLoading (value : bool) (w : World) : World :=
  {| view := {| studentSummary := studentSummary (view w);
                courseTasks := courseTasks (view w);
                tasksDetail := tasksDetail (view w);
                nextEvents := nextEvents (view w);
                loading := value |};
     log := log w ++ [SetLoading value] |}.

Definition setNextEvent (value : list CourseEvent) (w : World) : World :=
  {| view := {| studentSummary := studentSummary (view w);
                courseTasks := courseTasks (view w);
                tasksDetail := tasksDetail (view w);
                nextEvents := value;
                loading := loading (view w) |};
     log := log w |}.

Definition setStudentSummary (value : StudentSummary) (w : World) : World :=
  {| view := {| studentSummary := value;
                courseTasks := courseTasks (view w);
                tasksDetail := tasksDetail (view w);
                nextEvents := nextEvents (view w);
                loading := loading (view w) |};
     log := log w |}.

Definition setCourseTasks (value : list CourseTask) (w : World) : World :=
  {| view := {| studentSummary := studentSummary (view w);
                courseTasks := value;
                tasksDetail := tasksDetail (view w);
                nextEvents := nextEvents (view w);
                loading := loading (view w) |};
     log := log w |}.

Definition setTasksDetail (value : list StudentTasksDetail) (w : World) : World :=
  {| view := {| studentSummary := studentSummary (view w);
                courseTasks := courseTasks (view w);
                tasksDetail := value;
                nextEvents := nextEvents (view w);
                loading := loading (view w) |};
     log := log w |}.

(** [message.error(content)] *)
Definition messageError (content : string) (w : World) : World :=
  {| view := view w; log := log w ++ [MessageError content] |}.

Definition awaitBatch (w : World) : World :=
  {| view := view w; log := log w ++ [AwaitBatch] |}.

(** How a request of the batch settles. *)
Inductive Settled (A : Type) :=
| Fulfilled (value : A)
| Rejected (reason : string).
Arguments Fulfilled {A} value.
Arguments Rejected {A} reason.

(** [Promise.all([p1, p2, p3, p4])]: fulfilled with the four values when
    every request is fulfilled, rejected as soon as one is.  The reason is
    not bound by the [catch] of the source; the first in argument order is
    reported here. *)
Definition promiseAll {A B C D : Type} (p1 : Settled A) (p2 : Settled B)
    (p3 : Settled C) (p4 : Settled D) : Settled (A * B * C * D) :=
  match p1, p2, p3, p4 with
  | Fulfilled a, Fulfilled b, Fulfilled c, Fulfilled d => Fulfilled (a, b, c, d)
  | Rejected r, _, _, _ => Rejected r
  | _, Rejected r, _, _ => Rejected r
  | _, _, Rejected r, _ => Rejected r
  | _, _, _, Rejected r => Rejected r
  end.

(** [statisticsCourses.studentStats?.find(course => course.courseId ===
    props.course.id)?.tasks ?? []] *)
Definition tasksDetailCurrentCourse (statisticsCourses : ProfileInfo) (propsCourseId : Z)
    : list StudentTasksDetail :=
  match studentStats statisticsCourses with
  | None => []
  | Some stats =>
      match List.find (fun course => courseId course =? propsCourseId) stats with
      | Some course => tasks course
      | None => []
      end
  end.

Definition genericError : string := "An error occurred. Please try later.".

(** The callback given to [useAsync]: [try { ... } catch { ... } finally
    { ... }].  The four arguments say how the requests settle; [now] is the
    instant at which [moment()] is read after the batch.  Every setter
    call returns here, as it does when updates are batched;
    [fetchCallbackRendering] below adds the re-render of a setter call
    and the exception it can throw into the [try] block. *)
Definition fetchCallback `{Moment} `{Collation} (propsCourseId now : Z)
    (summaryRequest : Settled StudentSummary)
    (tasksRequest : Settled (list CourseTask))
    (profileRequest : Settled ProfileInfo)
    (eventsRequest : Settled (list CourseEvent))
    (w : World) : World :=
  let w1 := awaitBatch (setLoading true w) in
  let w2 :=
    match promiseAll summaryRequest tasksRequest profileRequest eventsRequest with
    | Fulfilled (summary, fetchedTasks, statisticsCourses, courseEvents) =>
        let detail := tasksDetailCurrentCourse statisticsCourses propsCourseId in
        let upcoming := computeNextEvents now courseEvents fetchedTasks in
        setTasksDetail detail
          (setCourseTasks fetchedTasks
             (setStudentSummary summary
                (setNextEvent upcoming w1)))
    | Rejected _ => messageError genericError w1
    end in
  setLoading false w2.

Definition isFulfilled {A : Type} (p : Settled A) : bool :=
  match p with
  | Fulfilled _ => true
  | Rejected _ => false
  end.

Definition isSetLoading (e : Effect) : bool :=
  match e with
  | SetLoading _ => true
  | _ => false
  end.

Definition isMessageError (e : Effect) : bool :=
  match e with
  | MessageError _ => true
  | _ => false
  end.

(** Some request of the batch rejects. *)
Definition someRejected {A B C D : Type} (p1 : Settled A) (p2 : Settled B)
    (p3 : Settled C) (p4 : Settled D) : Prop :=
  isFulfilled p1 = false \/ isFulfilled p2 = false
  \/ isFulfilled p3 = false \/ isFulfilled p4 = false.

(** ** Display-count preference *)

Definition preferenceKey : string := "showCountEventsOnStudentsDashboard".

(** [localStorage.getItem(key)]: the stored string, or [null]. *)
Definition getItem (localStorage : gmap string string) (key : string) : option string :=
  localStorage !! key.

(** The argument of [Number(...)] in the source: a stored string, or the
    literal [1]. *)
Inductive NumberArg :=
| ArgString (s : string)
| ArgNull
| ArgNumber (z : Z).

(** [Number(value)]; [Number(null)] is [0]. *)
Definition Number `{JsNumber} (value : NumberArg) : number :=
  match value with
  | ArgString s => StringToNumber s
  | ArgNull => numberOfZ 0
  | ArgNumber z => numberOfZ z
  end.

(** The condition of [c ? a : b] on a [string | null] value: [null] and
    the empty string are falsy. *)
Definition truthyString (x : option string) : bool :=
  match x with
  | Some s => negb (String.eqb s EmptyString)
  | None => false
  end.

(** [showCountEventsOnStudentsDashboard()] *)
Definition showCountEventsOnStudentsDashboard `{JsNumber}
    (localStorage : gmap string string) : number :=
  Number (if truthyString (getItem localStorage preferenceKey)
          then match getItem localStorage preferenceKey with
               | Some s => ArgString s
               | None => ArgNull
               end
          else ArgNumber 1).

(** ** Concrete libraries

    Small executable instances of the three interfaces, used to evaluate
    the page on concrete inputs.  Each covers a fragment of the real
    library. *)

Definition digitOf (c : ascii) : option Z :=
  let n := Z.of_N (N_of_ascii c) in
  if (48 <=? n) && (n <=? 57) then Some (n - 48) else None.

Definition isLeapYear (y : Z) : bool :=
  ((y mod 4 =? 0) && negb (y mod 100 =? 0)) || (y mod 400 =? 0).

Definition daysInMonth (y m : Z) : Z :=
  if m =? 2 then (if isLeapYear y then 29 else 28)
  else if (m =? 4) || (m =? 6) || (m =? 9) || (m =? 11) then 30
  else 31.

(** Days between 1970-01-01 and the given civil date. *)
Definition daysFromCivil (y m d : Z) : Z :=
  let y' := if m <=? 2 then y - 1 else y in
  let era := y' / 400 in
  let yoe := y' - era * 400 in
  let doy := (153 * (if 2 <? m then m - 3 else m + 9) + 2) / 5 + d - 1 in
  let doe := yoe * 365 + yoe / 4 - yoe / 100 + doy in
  era * 146097 + doe - 719468.

Definition msPerDay : Z := 86400000.

Definition isDateSeparator (c : ascii) : bool :=
  Ascii.eqb c "-"%char || Ascii.eqb c " "%char.

(** Calendar dates written [YYYY-MM-DD] (the ISO form of the task dates)
    or [YYYY MM DD] (the form of [currentDate]), read as midnight in a
    zone without offset; every other string is an invalid date, the empty
    string among them. *)
Definition parseCalendarDate (s : string) : option Z :=
  match s with
  | String y1 (String y2 (String y3 (String y4 (String s1
      (String m1 (String m2 (String s2 (String d1 (String d2 EmptyString))))))))) =>
      match digitOf y1, digitOf y2, digitOf y3, digitOf y4,
            digitOf m1, digitOf m2, digitOf d1, digitOf d2 with
      | Some a, Some b, Some c, Some d, Some e, Some f, Some g, Some h =>
          let y := 1000 * a + 100 * b + 10 * c + d in
          let m := 10 * e + f in
          let dd := 10 * g + h in
          if isDateSeparator s1 && Ascii.eqb s1 s2
             && (1 <=? m) && (m <=? 12) && (1 <=? dd) && (dd <=? daysInMonth y m)
          then Some (daysFromCivil y m dd * msPerDay)
          else None
      | _, _, _, _, _, _, _, _ => None
      end
  | _ => None
  end.

Definition calendarMoment : Moment :=
  {| moment := parseCalendarDate;
     startOfDay := fun t => t - t mod msPerDay;
     endOfDay := fun t => t - t mod msPerDay + (msPerDay - 1) |}.

(** Comparison of strings by code units, the order the spec gives for the
    sort. *)
Definition lexicographicCompare (a b : string) : Z :=
  match String.compare a b with
  | Lt => -1
  | Eq => 0
  | Gt => 1
  end.

Definition lexicographicCollation : Collation :=
  {| localeCompare := lexicographicCompare |}.

Fixpoint digitsValue (acc : Z) (s : string) : option Z :=
  match s with
  | EmptyString => Some acc
  | String c s' =>
      match digitOf c with
      | Some d => digitsValue (10 * acc + d) s'
      | None => None
      end
  end.

(** Numbers as integers or [NaN] ([None]); [StringToNumber] on strings of
    decimal digits, with the empty string converting to [0]. *)
Definition decimalNumber : JsNumber :=
  {| number := option Z;
     numberOfZ := fun z => Some z;
     StringToNumber := digitsValue 0 |}.

(** ** Scenario inputs *)

(** [{type: "deadline", studentStartDate: "2024-01-01", studentEndDate:
    "2024-01-10"}] *)
Definition deadlineScenarioTask (id : Z) (name url : string) : CourseTask :=
  {| task_id := id; task_name := name; task_type := "deadline";
     studentStartDate := Some "2024-01-01"; studentEndDate := Some "2024-01-10";
     task_descriptionUrl := url |}.

(** [{type: "test", studentStartDate: "2024-02-01", studentEndDate:
    "2024-02-05"}] *)
Definition testScenarioTask (id : Z) (name url : string) : CourseTask :=
  {| task_id := id; task_name := name; task_type := "test";
     studentStartDate := Some "2024-02-01"; studentEndDate := Some "2024-02-05";
     task_descriptionUrl := url |}.

(** The [{type, dateTime}] view of an event the scenarios are written in. *)
Definition typeAndDate (e : CourseEvent) : string * string :=
  (event_type (event e), dateTime e).

(** ** Writing the display-count preference *)

(** [String(value)] on a number. *)
Class JsNumberString (N : JsNumber) := {
  NumberToString : number -> string
}.

(** [localStorage.setItem(key, value)] *)
Definition setItem (localStorage : gmap string string) (key value : string)
    : gmap string string :=
  <[key := value]> localStorage.

(** The browser storage together with the [countEvents] state of the
    page. *)
Record PreferenceState (N : JsNumber) := mkPreferenceState {
  storage : gmap string string;
  countEvents : number
}.
Arguments mkPreferenceState {N} storage countEvents.
Arguments storage {N} p.
Arguments countEvents {N} p.

(** [useState(showCountEventsOnStudentsDashboard())]: the state of a page
    that mounts on the given storage. *)
Definition mountPreference (N : JsNumber) (localStorage : gmap string string)
    : PreferenceState N :=
  {| storage := localStorage;
     countEvents := showCountEventsOnStudentsDashboard localStorage |}.

(** [changeCountEvents(value)] *)
Definition changeCountEvents {N : JsNumber} {S : JsNumberString N}
    (value : number) (st : PreferenceState N) : PreferenceState N :=
  {| storage := setItem (storage st) preferenceKey (NumberToString value);
     countEvents := value |}.

(** [String] on the numbers of [decimalNumber]. *)
Definition decimalNumberString : JsNumberString decimalNumber :=
  {| NumberToString := fun v : @number decimalNumber =>
       match v with
       | Some z => NilZero.string_of_int (Z.to_int z)
       | None => "NaN"
       end |}.

(** ** Derived predicates of the properties below *)

(** The date a derived event of the given type reads from its task. *)
Definition relevantDate (task : CourseTask) (type : string) : option string :=
  if String.eqb type TaskTypes.deadline
  then studentEndDate task else studentStartDate task.

(** The filter predicate of the Event Merger at the instant [now]. *)
Definition isUpcoming `{Moment} (now : Z) (e : CourseEvent) : bool :=
  isAfter (moment (dateTime e)) (Some (startOfDay now)).

(** A task without a result whose end date passes neither date test. *)
Definition unclassified `{Moment} (currentDate : string) (rs : list TaskResult)
    (task : CourseTask) : bool :=
  negb (hasResultb rs task)
  && negb (isBeforeDate (momentOf (studentEndDate task)) (moment currentDate))
  && negb (isAfterDate (momentOf (studentEndDate task)) (moment currentDate)).

(** The classifier as every render evaluates it, on the view state. *)
Definition renderTaskStatistics `{Moment} (currentDate : string) (v : ViewState)
    : Completion TaskStatistics :=
  taskStatistics currentDate (studentSummary v) (courseTasks v) (tasksDetail v).

(** ** The fetch callback with re-rendering setters

    The four state setters of a fulfilled batch are called inside the
    [try] block.  When React renders synchronously, a setter call
    re-renders the page before it returns, and an exception of that render
    comes out of the call, ends the block and reaches the [catch]; when
    updates are batched, the call only records the new state.  What the
    re-render of a view does is a parameter. *)

(** The setter calls of a fulfilled batch, in source order. *)
Definition fulfilledSetters `{Moment} `{Collation} (propsCourseId now : Z)
    (summary : StudentSummary) (fetchedTasks : list CourseTask)
    (statisticsCourses : ProfileInfo) (courseEvents : list CourseEvent)
    : list (World -> World) :=
  [ setNextEvent (computeNextEvents now courseEvents fetchedTasks);
    setStudentSummary summary;
    setCourseTasks fetchedTasks;
    setTasksDetail (tasksDetailCurrentCourse statisticsCourses propsCourseId) ].

(** The calls in order: each updates the state and re-renders the new
    view; the first render that throws ends the sequence. *)
Fixpoint runSetters (rerender : ViewState -> Completion unit)
    (setters : list (World -> World)) (w : World) : Completion unit * World :=
  match setters with
  | [] => (Normal tt, w)
  | set :: rest =>
      match rerender (view (set w)) with
      | Normal _ => runSetters rerender rest (set w)
      | Throw e => (Throw e, set w)
      end
  end.

(** The views the page goes through while the setters are called. *)
Fixpoint viewsAfter (setters : list (World -> World)) (w : World) : list ViewState :=
  match setters with
  | [] => []
  | set :: rest => view (set w) :: viewsAfter rest (set w)
  end.

(** The callback given to [useAsync], with the re-render of each setter of
    the [try] block.  [setLoading] writes only the loading flag, which no
    derivation of the render reads. *)
Definition fetchCallbackRendering `{Moment} `{Collation}
    (rerender : ViewState -> Completion unit) (propsCourseId now : Z)
    (summaryRequest : Settled StudentSummary)
    (tasksRequest : Settled (list CourseTask))
    (profileRequest : Settled ProfileInfo)
    (eventsRequest : Settled (list CourseEvent))
    (w : World) : World :=
  let w1 := awaitBatch (setLoading true w) in
  let w2 :=
    match promiseAll summaryRequest tasksRequest profileRequest eventsRequest with
    | Fulfilled (summary, fetchedTasks, statisticsCourses, courseEvents) =>
        match runSetters rerender
                (fulfilledSetters propsCourseId now summary fetchedTasks
                   statisticsCourses courseEvents) w1 with
        | (Normal _, w') => w'
        | (Throw _, w') => messageError genericError w'
        end
    | Rejected _ => messageError genericError w1
    end in
  setLoading false w2.

(** Batched updates: a setter call renders nothing. *)
Definition batchedRender (v : ViewState) : Completion unit := Normal tt.

(** Synchronous rendering: a setter call evaluates the classifier on the
    new view, the one derivation of the render that can throw. *)
Definition classifierRender `{Moment} (currentDate : string) (v : ViewState)
    : Completion unit :=
  let! stats := renderTaskStatistics currentDate v in Normal tt.

(** ** A collation that is not the code-unit order

    Locale collation ranks the hyphen-minus before the plus sign, and both
    before the digits, while their code units are in the order plus,
    hyphen-minus, digits, colon. *)

Definition collationRank (c : ascii) : Z :=
  let n := Z.of_N (N_of_ascii c) in
  if Ascii.eqb c " "%char then 0
  else if Ascii.eqb c "-"%char then 1
  else if Ascii.eqb c ":"%char then 2
  else if Ascii.eqb c "."%char then 3
  else if Ascii.eqb c "+"%char then 4
  else if (48 <=? n) && (n <=? 57) then 10 + (n - 48)
  else 100 + n.

Fixpoint rankCompare (a b : string) : Z :=
  match a, b with
  | EmptyString, EmptyString => 0
  | EmptyString, String _ _ => -1
  | String _ _, EmptyString => 1
  | String x a', String y b' =>
      if collationRank x <? collationRank y then -1
      else if collationRank y <? collationRank x then 1
      else rankCompare a' b'
  end.

(** [localeCompare] on date strings: separators, signs and digits in the
    collation order, any other character by its code. *)
Definition rankCollation : Collation := {| localeCompare := rankCompare |}.

Definition twoDigits (s : string) : option (Z * string) :=
  match s with
  | String a (String b rest) =>
      match digitOf a, digitOf b with
      | Some x, Some y => Some (10 * x + y, rest)
      | _, _ => None
      end
  | _ => None
  end.

Definition expectChar (c : ascii) (s : string) : option string :=
  match s with
  | String a rest => if Ascii.eqb a c then Some rest else None
  | EmptyString => None
  end.

Definition offsetSign (s : string) : option (Z * string) :=
  match s with
  | String a rest =>
      if Ascii.eqb a "+"%char then Some (1, rest)
      else if Ascii.eqb a "-"%char then Some (-1, rest)
      else None
  | EmptyString => None
  end.

(** ISO 8601 date-times with an offset, [YYYY-MM-DDTHH:MM:SS+HH:MM] or
    with [-HH:MM]: the instant is the local time less the offset. *)
Definition parseOffsetDateTime (s : string) : option Z :=
  day ← parseCalendarDate (substring 0 10 s);
  _ ← expectChar "-"%char (substring 4 1 s);
  r ← expectChar "T"%char (substring 10 (String.length s - 10) s);
  '(h, r) ← twoDigits r;
  r ← expectChar ":"%char r;
  '(mi, r) ← twoDigits r;
  r ← expectChar ":"%char r;
  '(sec, r) ← twoDigits r;
  '(sign, r) ← offsetSign r;
  '(oh, r) ← twoDigits r;
  r ← expectChar ":"%char r;
  '(om, r) ← twoDigits r;
  if String.eqb r EmptyString && (h <? 24) && (mi <? 60) && (sec <? 60)
     && (oh <? 24) && (om <? 60)
  then Some (day + ((h * 60 + mi) * 60 + sec) * 1000 - sign * (oh * 60 + om) * 60000)
  else None.

(** Calendar dates and date-times with an offset; every other string is
    an invalid date. *)
Definition offsetMoment : Moment :=
  {| moment := fun s =>
       match parseOffsetDateTime s with
       | Some t => Some t
       | None => parseCalendarDate s
       end;
     startOfDay := fun t => t - t mod msPerDay;
     endOfDay := fun t => t - t mod msPerDay + (msPerDay - 1) |}.

(** * Properties *)

(** ** Event Deriver *)

Lemma pushTaskEvents_acc (acc : list CourseEvent) (task : CourseTask) :
  pushTaskEvents acc task = acc ++ pushTaskEvents [] task.
Proof.
  unfold pushTaskEvents.
  destruct (negb (String.eqb (task_type task) TaskTypes.test)); simpl.
  - now rewrite <- app_assoc.
  - reflexivity.
Qed.

Lemma fold_pushTaskEvents (tasks : list CourseTask) (acc : list CourseEvent) :
  fold_left pushTaskEvents tasks acc
  = acc ++ concat (map (fun task => pushTaskEvents [] task) tasks).
Proof.
  revert acc; induction tasks as [|task tasks IH]; intros acc; simpl.
  - now rewrite app_nil_r.
  - rewrite IH, pushTaskEvents_acc, <- app_assoc. reflexivity.
Qed.

Lemma tasksToEvents_single (task : CourseTask) :
  tasksToEvents [task] = pushTaskEvents [] task.
Proof. reflexivity. Qed.

Lemma tasksToEvents_concat (tasks : list CourseTask) :
  tasksToEvents tasks = concat (map (fun task => tasksToEvents [task]) tasks).
Proof.
  unfold tasksToEvents at 1. rewrite fold_pushTaskEvents. reflexivity.
Qed.

Lemma tasksToEvents_test (task : CourseTask) :
  task_type task = TaskTypes.test ->
  tasksToEvents [task] = [createCourseEventFromTask task TaskTypes.test].
Proof.
  intros Htype. rewrite tasksToEvents_single. unfold pushTaskEvents.
  rewrite Htype. reflexivity.
Qed.

Lemma tasksToEvents_non_test (task : CourseTask) :
  task_type task <> TaskTypes.test ->
  tasksToEvents [task]
  = [createCourseEventFromTask task (task_type task);
     createCourseEventFromTask task TaskTypes.deadline].
Proof.
  intros Htype. rewrite tasksToEvents_single. unfold pushTaskEvents.
  apply String.eqb_neq in Htype. rewrite Htype. reflexivity.
Qed.

(** C2, refuted as stated: for the deadline scenario task the first event
    carries the end date "2024-01-10", not the start date "2024-01-01", so
    the emitted list is not the one the claim gives and the general rule
    fails at this task. *)
Lemma deadline_scenario_not_start_date :
  let task := deadlineScenarioTask 1 "task" "url" in
  map typeAndDate (tasksToEvents [task])
    <> [("deadline", "2024-01-01"); ("deadline", "2024-01-10")]
  /\ ~ (task_type task <> TaskTypes.test ->
        exists first rest, tasksToEvents [task] = first :: rest
          /\ event_type (event first) = task_type task
          /\ Some (dateTime first) = studentStartDate task).
Proof.
  split.
  - vm_compute. discriminate.
  - intros Hclaim. destruct Hclaim as (first & rest & Hev & _ & Hdate).
    + vm_compute. discriminate.
    + vm_compute in Hev. injection Hev as <- _. vm_compute in Hdate. discriminate.
Qed.

(** C2, amended: the deadline scenario task yields two deadline events that
    both carry the end date "2024-01-10"; for every task whose type is not
    "test" the first event has the task's own type, and its dateTime is the
    student end date when that type is "deadline" and the student start
    date otherwise, the empty string standing for an absent date. *)
Theorem deriver_first_event :
  (forall id name url,
     map typeAndDate (tasksToEvents [deadlineScenarioTask id name url])
     = [("deadline", "2024-01-10"); ("deadline", "2024-01-10")])
  /\ (forall task, task_type task <> TaskTypes.test ->
        exists first second,
          tasksToEvents [task] = [first; second]
          /\ event_type (event first) = task_type task
          /\ dateTime first
             = orEmpty (if String.eqb (task_type task) TaskTypes.deadline
                        then studentEndDate task else studentStartDate task)).
Proof.
  split.
  - intros id name url. reflexivity.
  - intros task Htype. rewrite (tasksToEvents_non_test task Htype).
    eexists _, _. split; [reflexivity|]. split; reflexivity.
Qed.

Lemma deriver_first_event_witness :
  exists first second,
    tasksToEvents [mkCourseTask 7 "Lecture 1" "lecture" (Some "2024-03-01") None "url"]
    = [first; second]
    /\ event_type (event first) = "lecture"
    /\ dateTime first = "2024-03-01".
Proof.
  apply (proj2 deriver_first_event
           (mkCourseTask 7 "Lecture 1" "lecture" (Some "2024-03-01") None "url")).
  vm_compute. discriminate.
Defined.

(** C3, refuted as stated: the single event of the test scenario task does
    not carry the end date "2024-02-05". *)
Lemma test_scenario_not_end_date :
  map typeAndDate (tasksToEvents [testScenarioTask 1 "task" "url"])
    <> [("test", "2024-02-05")].
Proof. vm_compute. discriminate. Qed.

(** C3, amended: for the test scenario task the Event Deriver emits exactly
    one event, of type "test", whose dateTime is the student start date
    "2024-02-01". *)
Theorem test_scenario_events (id : Z) (name url : string) :
  tasksToEvents [testScenarioTask id name url]
  = [ {| event_id := id; dateTime := "2024-02-01";
         event := {| event_type := "test"; event_name := name;
                     event_descriptionUrl := url |} |} ].
Proof. reflexivity. Qed.

(** C4: the events of a task list are the events of its tasks, one task
    after the other in list order; a task of type "test" contributes one
    event and a task of any other type two, all carrying the task's id. *)
Theorem tasksToEvents_order_and_count (tasks : list CourseTask) :
  tasksToEvents tasks = concat (map (fun task => tasksToEvents [task]) tasks)
  /\ (forall task,
        length (tasksToEvents [task])
        = (if String.eqb (task_type task) TaskTypes.test then 1 else 2)%nat
        /\ Forall (fun e => event_id e = task_id task) (tasksToEvents [task]))
  /\ length (tasksToEvents tasks)
     = list_sum (map (fun task =>
         if String.eqb (task_type task) TaskTypes.test then 1 else 2)%nat tasks).
Proof.
  assert (Hone : forall task,
            length (tasksToEvents [task])
            = (if String.eqb (task_type task) TaskTypes.test then 1 else 2)%nat
            /\ Forall (fun e => event_id e = task_id task) (tasksToEvents [task])).
  { intros task. rewrite tasksToEvents_single. unfold pushTaskEvents.
    destruct (String.eqb (task_type task) TaskTypes.test); simpl;
      split; try reflexivity; repeat constructor. }
  split; [apply tasksToEvents_concat|]. split; [exact Hone|].
  rewrite tasksToEvents_concat.
  induction tasks as [|task tasks IH]; simpl; [reflexivity|].
  rewrite length_app, IH. f_equal. apply Hone.
Qed.

(** ** Sorting *)

Lemma string_leb_trans (a b c : string) :
  String.leb a b = true -> String.leb b c = true -> String.leb a c = true.
Proof.
  revert b c. induction a as [|x a IH]; intros [|y b] [|z c]; try easy.
  specialize (IH b c). unfold String.leb in *. simpl. unfold Ascii.compare.
  destruct (N.compare_spec (N_of_ascii x) (N_of_ascii y)) as [Hxy|Hxy|Hxy];
    destruct (N.compare_spec (N_of_ascii y) (N_of_ascii z)) as [Hyz|Hyz|Hyz];
    destruct (N.compare_spec (N_of_ascii x) (N_of_ascii z)) as [Hxz|Hxz|Hxz];
    try lia; try easy.
Qed.

Section ArraySort.
Context {A : Type}.

Lemma insertSorted_perm (compareFn : A -> A -> Z) (x : A) (l : list A) :
  Permutation (x :: l) (insertSorted compareFn x l).
Proof.
  induction l as [|y l IH]; simpl; [reflexivity|].
  destruct (compareFn x y <=? 0); [reflexivity|].
  rewrite perm_swap. now apply perm_skip.
Qed.

Lemma arraySort_perm (compareFn : A -> A -> Z) (l : list A) :
  Permutation l (arraySort compareFn l).
Proof.
  induction l as [|x l IH]; simpl; [reflexivity|].
  rewrite <- insertSorted_perm. now apply perm_skip.
Qed.

Lemma insertSorted_ext (f g : A -> A -> Z) (x : A) (l : list A) :
  (forall y, In y l -> (f x y <=? 0) = (g x y <=? 0)) ->
  insertSorted f x l = insertSorted g x l.
Proof.
  induction l as [|y l IH]; intros Hagree; simpl; [reflexivity|].
  rewrite (Hagree y (or_introl eq_refl)).
  destruct (g x y <=? 0); [reflexivity|].
  f_equal. apply IH. intros y' Hy'. apply Hagree. now right.
Qed.

Lemma arraySort_ext (f g : A -> A -> Z) (l : list A) :
  (forall x y, In x l -> In y l -> (f x y <=? 0) = (g x y <=? 0)) ->
  arraySort f l = arraySort g l.
Proof.
  induction l as [|x l IH]; intros Hagree; simpl; [reflexivity|].
  rewrite IH by (intros; apply Hagree; now right).
  apply insertSorted_ext. intros y Hy. apply Hagree; [now left|].
  right. eapply Permutation_in; [symmetry; apply arraySort_perm|exact Hy].
Qed.

Variable compareFn : A -> A -> Z.
Variable le : A -> A -> Prop.
Hypothesis le_compare : forall x y, (compareFn x y <=? 0) = true <-> le x y.
Hypothesis le_total : forall x y, le x y \/ le y x.
Hypothesis le_trans : forall x y z, le x y -> le y z -> le x z.

Lemma insertSorted_sorted (x : A) (l : list A) :
  StronglySorted le l -> StronglySorted le (insertSorted compareFn x l).
Proof.
  induction 1 as [|y l Hsorted IH Hall]; simpl.
  - repeat constructor.
  - destruct (compareFn x y <=? 0) eqn:Hcmp.
    + apply le_compare in Hcmp. constructor; [now constructor|].
      constructor; [exact Hcmp|].
      eapply List.Forall_impl; [|exact Hall]. intros z Hz. eauto.
    + constructor; [exact IH|].
      assert (Hyx : le y x).
      { destruct (le_total x y) as [Hxy|Hyx]; [|exact Hyx].
        apply le_compare in Hxy. congruence. }
      rewrite <- (insertSorted_perm compareFn x l). now constructor.
Qed.

Lemma arraySort_sorted (l : list A) : StronglySorted le (arraySort compareFn l).
Proof.
  induction l as [|x l IH]; simpl; [constructor|].
  now apply insertSorted_sorted.
Qed.

End ArraySort.

Lemma filter_sorted {A : Type} (le : A -> A -> Prop) (keep : A -> bool) (l : list A) :
  StronglySorted le l -> StronglySorted le (List.filter keep l).
Proof.
  induction 1 as [|x l Hsorted IH Hall]; simpl; [constructor|].
  destruct (keep x); [|exact IH].
  constructor; [exact IH|].
  apply List.Forall_forall. intros y Hy. apply filter_In in Hy.
  rewrite List.Forall_forall in Hall. now apply Hall.
Qed.

(** ** Event Merger *)

Lemma lexicographicCompare_sign (a b : string) :
  (lexicographicCompare a b ?= 0) = String.compare a b.
Proof. unfold lexicographicCompare. now destruct (String.compare a b). Qed.

Lemma compare_sign_leb (c : Z) (a b : string) :
  (c ?= 0) = String.compare a b -> (c <=? 0) = String.leb a b.
Proof.
  intros Hsign. unfold Z.leb, String.leb. rewrite Hsign.
  now destruct (String.compare a b).
Qed.

Lemma lexicographicCompare_leb (a b : string) :
  (lexicographicCompare a b <=? 0) = true <-> String.leb a b = true.
Proof.
  now rewrite (compare_sign_leb _ a b (lexicographicCompare_sign a b)).
Qed.

Lemma lexicographicCompare_le (a b : string) :
  lexicographicCompare a b <= 0 <-> String.leb a b = true.
Proof. rewrite <- lexicographicCompare_leb. symmetry. apply Z.leb_le. Qed.

(** C5, refuted as stated: two fetched events dated in the future by ISO
    date-times that differ in the sign of their offset come out of the
    merge with the "-01:00" one first, the order of the collation, which is
    decreasing in the lexicographic order. *)
Lemma offset_dates_not_lexicographic :
  let plus := mkCourseEvent 1 "2999-01-01T10:00:00+01:00" (mkEventInfo "lecture" "A" "u") in
  let minus := mkCourseEvent 2 "2999-01-01T10:00:00-01:00" (mkEventInfo "lecture" "B" "u") in
  @mergeEvents offsetMoment rankCollation 0 [plus; minus] [] = [minus; plus]
  /\ String.leb (dateTime minus) (dateTime plus) = false
  /\ ~ StronglySorted (fun a b => String.leb (dateTime a) (dateTime b) = true)
         (@mergeEvents offsetMoment rankCollation 0 [plus; minus] []).
Proof.
  intros plus minus.
  assert (Hout : @mergeEvents offsetMoment rankCollation 0 [plus; minus] []
                 = [minus; plus]) by (vm_compute; reflexivity).
  split; [exact Hout|]. split; [reflexivity|].
  rewrite Hout. intros Hsorted. inversion Hsorted as [|? ? _ Hall]; subst.
  inversion Hall as [|? ? Hle _]; subst. vm_compute in Hle. discriminate.
Qed.

(** C5, amended: for every pair of event lists and every current instant,
    each entry of the merged list has a valid dateTime strictly after the
    start of the current day (none at or before it); with [moment('')]
    invalid, no entry has the empty string as dateTime; with
    [localeCompare] a total preorder, the list is non-decreasing by
    dateTime in the order of [localeCompare]; and it is non-decreasing in
    the lexicographic order whenever the sign of [localeCompare] on the
    dateTimes at hand is their lexicographic comparison. *)
Theorem mergeEvents_sorted_upcoming (M : Moment) (C : Collation) (now : Z)
    (fetched derived : list CourseEvent) :
  let upcoming := mergeEvents now fetched derived in
  Forall (fun e => exists t, moment (dateTime e) = Some t /\ startOfDay now < t
                   /\ ~ t <= startOfDay now) upcoming
  /\ (moment EmptyString = None ->
        Forall (fun e => dateTime e <> EmptyString) upcoming)
  /\ ((forall a b, localeCompare a b <= 0 \/ localeCompare b a <= 0) ->
      (forall a b c, localeCompare a b <= 0 -> localeCompare b c <= 0 ->
                     localeCompare a c <= 0) ->
        StronglySorted (fun a b => localeCompare (dateTime a) (dateTime b) <= 0)
          upcoming)
  /\ ((forall a b, In a (fetched ++ derived) -> In b (fetched ++ derived) ->
         (localeCompare (dateTime a) (dateTime b) ?= 0)
         = String.compare (dateTime a) (dateTime b)) ->
        StronglySorted (fun a b => String.leb (dateTime a) (dateTime b) = true)
          upcoming).
Proof.
  intros upcoming. subst upcoming. unfold mergeEvents.
  assert (Hafter : forall e,
            isAfter (moment (dateTime e)) (Some (startOfDay now)) = true ->
            exists t, moment (dateTime e) = Some t /\ startOfDay now < t).
  { intros e He. unfold isAfter in He.
    destruct (moment (dateTime e)) as [t|]; [|discriminate].
    exists t. split; [reflexivity|]. now apply Z.ltb_lt. }
  split; [|split; [|split]].
  - apply List.Forall_forall. intros e He. apply filter_In in He.
    destruct (Hafter e (proj2 He)) as (t & Ht & Hlt).
    exists t. repeat split; [exact Ht|exact Hlt|lia].
  - intros Hempty. apply List.Forall_forall. intros e He. apply filter_In in He.
    destruct (Hafter e (proj2 He)) as (t & Ht & _).
    intros Heq. rewrite Heq in Ht. congruence.
  - intros Htotal Htrans. apply filter_sorted. apply arraySort_sorted.
    + intros x y. unfold byDateTime. apply Z.leb_le.
    + intros x y. apply Htotal.
    + intros x y z. apply Htrans.
  - intros Hagree. apply filter_sorted.
    rewrite (arraySort_ext byDateTime
               (fun a b => lexicographicCompare (dateTime a) (dateTime b))).
    + apply arraySort_sorted.
      * intros x y. apply lexicographicCompare_leb.
      * intros x y. apply String.leb_total.
      * intros x y z. apply string_leb_trans.
    + intros x y Hx Hy. unfold byDateTime.
      rewrite (compare_sign_leb _ _ _ (Hagree x y Hx Hy)).
      now rewrite (compare_sign_leb _ _ _ (lexicographicCompare_sign _ _)).
Qed.

Lemma mergeEvents_sorted_upcoming_witness :
  let fetched :=
    [ mkCourseEvent 3 "2024-05-20" (mkEventInfo "lecture" "Intro" "url3");
      mkCourseEvent 4 "2024-01-02" (mkEventInfo "lecture" "Past" "url4") ] in
  let derived :=
    tasksToEvents [mkCourseTask 7 "Task" "newtask" (Some "2024-03-01") None "url7"] in
  let upcoming :=
    @mergeEvents calendarMoment lexicographicCollation 1706745600000 fetched derived in
  map event_id upcoming = [7; 3]
  /\ Forall (fun e => dateTime e <> EmptyString) upcoming
  /\ StronglySorted (fun a b => lexicographicCompare (dateTime a) (dateTime b) <= 0)
       upcoming
  /\ StronglySorted (fun a b => String.leb (dateTime a) (dateTime b) = true) upcoming.
Proof.
  intros fetched derived.
  destruct (mergeEvents_sorted_upcoming calendarMoment lexicographicCollation
              1706745600000 fetched derived) as (_ & Hnonempty & Hcollation & Hlex).
  split; [reflexivity|]. split; [|split].
  - apply Hnonempty. reflexivity.
  - apply Hcollation.
    + intros a b. simpl. rewrite !lexicographicCompare_le. apply String.leb_total.
    + intros a b c. simpl. rewrite !lexicographicCompare_le. apply string_leb_trans.
  - apply Hlex. intros a b _ _. apply lexicographicCompare_sign.
Defined.



(** ** Task Classifier *)

Lemma filterC_total {A : Type} (keep : A -> bool) (l : list A) :
  filterC (fun x => Normal (keep x)) l = Normal (List.filter keep l).
Proof.
  induction l as [|x l IH]; simpl; [reflexivity|]. rewrite IH. reflexivity.
Qed.

Lemma filterC_ext {A : Type} (f g : A -> Completion bool) (l : list A) :
  (forall x, f x = g x) -> filterC f l = filterC g l.
Proof.
  intros Hfg. induction l as [|x l IH]; simpl; [reflexivity|].
  now rewrite Hfg, IH.
Qed.

Lemma hasResultb_spec (rs : list TaskResult) (task : CourseTask) :
  hasResultb rs task = true <-> hasResult rs task.
Proof.
  unfold hasResultb, hasResult.
  destruct (List.find _ rs) as [r|] eqn:Hfind; simpl.
  - apply find_some in Hfind. destruct Hfind as [Hin Heq].
    apply Z.eqb_eq in Heq. split; [|reflexivity]. intros _. now exists r.
  - split; [discriminate|]. intros (r & Hin & Heq).
    apply (find_none _ _ Hfind) in Hin. apply Z.eqb_neq in Hin. contradiction.
Qed.

Lemma tasksCompleted_present (rs : list TaskResult) (tasks : list CourseTask)
    (details : list StudentTasksDetail) :
  tasksCompleted (Some rs) tasks details
  = Normal (map (enrichCompleted details) (List.filter (hasResultb rs) tasks)).
Proof.
  unfold tasksCompleted. simpl.
  rewrite (filterC_ext _ (fun task => Normal (hasResultb rs task))) by reflexivity.
  now rewrite filterC_total.
Qed.

Lemma tasksNotDone_present (M : Moment) (currentDate : string)
    (rs : list TaskResult) (tasks : list CourseTask) :
  tasksNotDone currentDate (Some rs) tasks
  = Normal (map (fun task => {| stat_task := task; comment := Null;
                                githubPrUri := Null; score := Value 0 |})
              (List.filter (fun task =>
                 isBeforeDate (momentOf (studentEndDate task)) (moment currentDate)
                 && negb (hasResultb rs task)) tasks)).
Proof.
  unfold tasksNotDone.
  rewrite (filterC_ext _ (fun task => Normal
             (isBeforeDate (momentOf (studentEndDate task)) (moment currentDate)
              && negb (hasResultb rs task)))).
  - now rewrite filterC_total.
  - intros task. unfold notDoneCallback.
    now destruct (isBeforeDate _ _).
Qed.

Lemma tasksFuture_present (M : Moment) (currentDate : string)
    (rs : list TaskResult) (tasks : list CourseTask) :
  tasksFuture currentDate (Some rs) tasks
  = Normal (map (fun task => {| stat_task := task; comment := Null;
                                githubPrUri := Null; score := Null |})
              (List.filter (fun task =>
                 isAfterDate (momentOf (studentEndDate task)) (moment currentDate)
                 && negb (hasResultb rs task)) tasks)).
Proof.
  unfold tasksFuture.
  rewrite (filterC_ext _ (fun task => Normal
             (isAfterDate (momentOf (studentEndDate task)) (moment currentDate)
              && negb (hasResultb rs task)))).
  - now rewrite filterC_total.
  - intros task. unfold futureCallback.
    now destruct (isAfterDate _ _).
Qed.

Lemma enrichCompleted_task (details : list StudentTasksDetail) (task : CourseTask) :
  stat_task (enrichCompleted details task) = task.
Proof. unfold enrichCompleted. now destruct (List.find _ details). Qed.

Lemma map_stat_task_enrich (details : list StudentTasksDetail) (l : list CourseTask) :
  map stat_task (map (enrichCompleted details) l) = l.
Proof.
  induction l as [|task l IH]; simpl; [reflexivity|].
  now rewrite enrichCompleted_task, IH.
Qed.

Lemma map_stat_task_const (c : JsField string) (g : JsField (list string))
    (s : JsField Z) (l : list CourseTask) :
  map stat_task (map (fun task => {| stat_task := task; comment := c;
                                     githubPrUri := g; score := s |}) l) = l.
Proof. induction l as [|task l IH]; simpl; [reflexivity|]. now rewrite IH. Qed.

Lemma isBeforeDate_spec (M : Moment) (this input : option Z) :
  isBeforeDate this input = true
  <-> exists e c, this = Some e /\ input = Some c /\ endOfDay e < c.
Proof.
  unfold isBeforeDate. destruct this as [e|], input as [c|]; split;
    try discriminate; try (intros (e' & c' & ? & ? & _); discriminate).
  - intros H. apply Z.ltb_lt in H. now exists e, c.
  - intros (e' & c' & [= ->] & [= ->] & H). now apply Z.ltb_lt.
Qed.

Lemma isAfterDate_spec (M : Moment) (this input : option Z) :
  isAfterDate this input = true
  <-> exists e c, this = Some e /\ input = Some c /\ c < startOfDay e.
Proof.
  unfold isAfterDate. destruct this as [e|], input as [c|]; split;
    try discriminate; try (intros (e' & c' & ? & ? & _); discriminate).
  - intros H. apply Z.ltb_lt in H. now exists e, c.
  - intros (e' & c' & [= ->] & [= ->] & H). now apply Z.ltb_lt.
Qed.

Lemma taskStatistics_present (M : Moment) (currentDate : string)
    (summary : StudentSummary) (rs : list TaskResult)
    (tasks : list CourseTask) (details : list StudentTasksDetail) :
  results summary = Some rs ->
  exists stats,
    taskStatistics currentDate summary tasks details = Normal stats
    /\ map stat_task (completed stats) = List.filter (hasResultb rs) tasks
    /\ map stat_task (notDone stats)
       = List.filter (fun task =>
           isBeforeDate (momentOf (studentEndDate task)) (moment currentDate)
           && negb (hasResultb rs task)) tasks
    /\ map stat_task (future stats)
       = List.filter (fun task =>
           isAfterDate (momentOf (studentEndDate task)) (moment currentDate)
           && negb (hasResultb rs task)) tasks.
Proof.
  intros Hrs. unfold taskStatistics. rewrite Hrs.
  rewrite tasksCompleted_present, tasksNotDone_present, tasksFuture_present.
  simpl. eexists. split; [reflexivity|]. simpl.
  now rewrite map_stat_task_enrich, !map_stat_task_const.
Qed.

(** C1, refuted as stated: a task without a result whose end date falls on
    the current day is in neither the notDone nor the future bucket. *)
Lemma due_today_in_no_bucket :
  let task :=
    mkCourseTask 1 "Task" "newtask" (Some "2024-01-01") (Some "2024-01-10") "url" in
  exists stats,
    @taskStatistics calendarMoment "2024 01 10"
      (mkStudentSummary (Some []) None None None) [task] [] = Normal stats
    /\ ~ hasResult [] task
    /\ ~ inBucket task (notDone stats)
    /\ ~ inBucket task (future stats).
Proof.
  eexists. split; [vm_compute; reflexivity|].
  split; [|split].
  - intros (r & [] & _).
  - intros [].
  - intros [].
Qed.

(** C1, amended: with a result list present, every task of the list that
    has a matching result appears only in the completed bucket; every task
    without one is absent from completed and appears in at most one of
    notDone and future: in notDone exactly when the day of its end date
    ends before the current date, in future exactly when that day starts
    after the current date. *)
Theorem classifier_partition (M : Moment) (currentDate : string)
    (summary : StudentSummary) (rs : list TaskResult)
    (tasks : list CourseTask) (details : list StudentTasksDetail) :
  (forall t, startOfDay t <= endOfDay t) ->
  results summary = Some rs ->
  exists stats,
    taskStatistics currentDate summary tasks details = Normal stats
    /\ forall task, In task tasks ->
         (hasResult rs task ->
            inBucket task (completed stats)
            /\ ~ inBucket task (notDone stats)
            /\ ~ inBucket task (future stats))
         /\ (~ hasResult rs task ->
               ~ inBucket task (completed stats)
               /\ ~ (inBucket task (notDone stats) /\ inBucket task (future stats))
               /\ (inBucket task (notDone stats)
                   <-> exists e c, momentOf (studentEndDate task) = Some e
                         /\ moment currentDate = Some c /\ endOfDay e < c)
               /\ (inBucket task (future stats)
                   <-> exists e c, momentOf (studentEndDate task) = Some e
                         /\ moment currentDate = Some c /\ c < startOfDay e)).
Proof.
  intros Hday Hrs.
  destruct (taskStatistics_present M currentDate summary rs tasks details Hrs)
    as (stats & Hstats & Hc & Hn & Hf).
  exists stats. split; [exact Hstats|].
  intros task Hin. unfold inBucket. rewrite Hc, Hn, Hf, !filter_In.
  rewrite !andb_true_iff, !negb_true_iff.
  rewrite isBeforeDate_spec, isAfterDate_spec.
  pose proof (hasResultb_spec rs task) as Hspec.
  destruct (hasResultb rs task); split.
  - intros _. repeat split; try exact Hin; intros [_ [_ ?]]; discriminate.
  - intros Hno. exfalso. apply Hno. now apply Hspec.
  - intros Hyes. apply Hspec in Hyes. discriminate.
  - intros _. split; [intros [_ ?]; discriminate|]. split; [|split].
    + intros [[_ [(e & c & He & Hc1 & Hlt) _]] [_ [(e' & c' & He' & Hc' & Hgt) _]]].
      rewrite He in He'. rewrite Hc1 in Hc'.
      injection He' as <-. injection Hc' as <-.
      specialize (Hday e). lia.
    + split; [intros [_ [H _]]; exact H|intros H; repeat split; assumption].
    + split; [intros [_ [H _]]; exact H|intros H; repeat split; assumption].
Qed.

Lemma calendar_day_bounds (t : Z) :
  @startOfDay calendarMoment t <= @endOfDay calendarMoment t.
Proof. simpl. unfold msPerDay. lia. Qed.

Lemma classifier_partition_witness :
  let tasks :=
    [ mkCourseTask 1 "Done" "newtask" (Some "2024-01-01") (Some "2024-01-05") "u1";
      mkCourseTask 2 "Late" "newtask" (Some "2024-01-01") (Some "2024-01-08") "u2";
      mkCourseTask 3 "Next" "newtask" (Some "2024-01-15") (Some "2024-01-20") "u3" ] in
  let summary := mkStudentSummary (Some [mkTaskResult 1 90]) (Some 90) (Some 4) (Some true) in
  exists stats,
    @taskStatistics calendarMoment "2024 01 10" summary tasks [] = Normal stats
    /\ map (fun s => task_id (stat_task s)) (completed stats) = [1]
    /\ map (fun s => task_id (stat_task s)) (notDone stats) = [2]
    /\ map (fun s => task_id (stat_task s)) (future stats) = [3].
Proof.
  intros tasks summary.
  destruct (classifier_partition calendarMoment "2024 01 10" summary
              [mkTaskResult 1 90] tasks [] calendar_day_bounds eq_refl)
    as (stats & Hstats & _).
  exists stats. split; [exact Hstats|].
  vm_compute in Hstats. injection Hstats as <-. repeat split.
Defined.

(** C6: with a result list present, the completed bucket holds exactly the
    tasks of the list for which some result has courseTaskId equal to the
    task's id, in list order; each entry takes comment, PR link and score
    from the first detail entry whose name is the task's name, and has all
    three undefined when no detail entry has that name. *)
Theorem completed_bucket (rs : list TaskResult) (tasks : list CourseTask)
    (details : list StudentTasksDetail) :
  exists bucket,
    tasksCompleted (Some rs) tasks details = Normal bucket
    /\ map stat_task bucket = List.filter (hasResultb rs) tasks
    /\ (forall task, inBucket task bucket <-> In task tasks /\ hasResult rs task)
    /\ Forall (fun entry =>
         match List.find (fun d => String.eqb (detail_name d)
                                     (task_name (stat_task entry))) details with
         | Some d =>
             In d details /\ detail_name d = task_name (stat_task entry)
             /\ comment entry = detail_comment d
             /\ githubPrUri entry = taskGithubPrUris d
             /\ score entry = detail_score d
         | None =>
             (forall d, In d details -> detail_name d <> task_name (stat_task entry))
             /\ comment entry = Undefined
             /\ githubPrUri entry = Undefined
             /\ score entry = Undefined
         end) bucket.
Proof.
  rewrite tasksCompleted_present. eexists. split; [reflexivity|].
  split; [apply map_stat_task_enrich|]. split.
  - intros task. unfold inBucket. rewrite map_stat_task_enrich, filter_In.
    now rewrite hasResultb_spec.
  - apply List.Forall_forall. intros entry Hentry.
    apply in_map_iff in Hentry. destruct Hentry as (task & <- & _).
    rewrite enrichCompleted_task. unfold enrichCompleted.
    destruct (List.find _ details) as [d|] eqn:Hfind; simpl.
    + apply find_some in Hfind. destruct Hfind as [Hin Hname].
      apply String.eqb_eq in Hname. repeat split; assumption.
    + repeat split. intros d Hin.
      apply (find_none _ _ Hfind) in Hin. now apply String.eqb_neq in Hin.
Qed.

Lemma filterC_guarded {A : Type} (guard : A -> bool) (e : JsError)
    (callback : A -> Completion bool) (l : list A) :
  (forall x, callback x = if guard x then Throw e else Normal false) ->
  filterC callback l = if existsb guard l then Throw e else Normal [].
Proof.
  intros Hcallback. induction l as [|x l IH]; simpl; [reflexivity|].
  rewrite Hcallback. destruct (guard x); simpl; [reflexivity|].
  rewrite IH. now destruct (existsb guard l).
Qed.

Lemma tasksCompleted_absent (tasks : list CourseTask) (details : list StudentTasksDetail) :
  tasksCompleted None tasks details
  = match tasks with [] => Normal [] | _ :: _ => Throw undefinedFind end.
Proof. now destruct tasks. Qed.

Lemma tasksNotDone_absent (M : Moment) (currentDate : string) (tasks : list CourseTask) :
  tasksNotDone currentDate None tasks
  = if existsb (fun task =>
         isBeforeDate (momentOf (studentEndDate task)) (moment currentDate)) tasks
    then Throw undefinedFind else Normal [].
Proof.
  unfold tasksNotDone.
  rewrite (filterC_guarded (fun task =>
             isBeforeDate (momentOf (studentEndDate task)) (moment currentDate))
             undefinedFind).
  - now destruct (existsb _ tasks).
  - intros task. unfold notDoneCallback. now destruct (isBeforeDate _ _).
Qed.

Lemma tasksFuture_absent (M : Moment) (currentDate : string) (tasks : list CourseTask) :
  tasksFuture currentDate None tasks
  = if existsb (fun task =>
         isAfterDate (momentOf (studentEndDate task)) (moment currentDate)) tasks
    then Throw undefinedFind else Normal [].
Proof.
  unfold tasksFuture.
  rewrite (filterC_guarded (fun task =>
             isAfterDate (momentOf (studentEndDate task)) (moment currentDate))
             undefinedFind).
  - now destruct (existsb _ tasks).
  - intros task. unfold futureCallback. now destruct (isAfterDate _ _).
Qed.

(** C9, refuted as stated: with the result list absent and a task list
    that is not empty, the notDone and future buckets are evaluated without
    reaching the member access when no task passes their date test. *)
Lemma date_buckets_skip_lookup :
  let tasks :=
    [mkCourseTask 1 "Task" "newtask" (Some "2024-01-01") (Some "2024-01-10") "url"] in
  results emptySummary = None
  /\ tasks <> []
  /\ @tasksNotDone calendarMoment "2024 01 10" (results emptySummary) tasks = Normal []
  /\ @tasksFuture calendarMoment "2024 01 10" (results emptySummary) tasks = Normal [].
Proof. repeat split. discriminate. Qed.

(** C9, amended: the member access on an absent result list is reached by
    the completed bucket exactly when the task list is not empty, by the
    notDone bucket exactly when some task passes its before-today test, and
    by the future bucket exactly when some task passes its after-today
    test; the classifier as a whole returns exactly when the task list is
    empty or the summary has a result list, and throws otherwise, as it
    does for the initial empty summary on every task list that is not
    empty. *)
Theorem classifier_totality (M : Moment) (currentDate : string)
    (tasks : list CourseTask) (details : list StudentTasksDetail) :
  (forall rs, tasksCompleted rs tasks details = Throw undefinedFind
              <-> rs = None /\ tasks <> [])
  /\ (forall rs, tasksNotDone currentDate rs tasks = Throw undefinedFind
                 <-> rs = None
                     /\ exists task, In task tasks
                          /\ isBeforeDate (momentOf (studentEndDate task))
                               (moment currentDate) = true)
  /\ (forall rs, tasksFuture currentDate rs tasks = Throw undefinedFind
                 <-> rs = None
                     /\ exists task, In task tasks
                          /\ isAfterDate (momentOf (studentEndDate task))
                               (moment currentDate) = true)
  /\ (forall summary,
        (exists stats, taskStatistics currentDate summary tasks details = Normal stats)
        <-> tasks = [] \/ exists rs, results summary = Some rs)
  /\ (forall summary,
        taskStatistics currentDate summary tasks details = Throw undefinedFind
        <-> results summary = None /\ tasks <> [])
  /\ (taskStatistics currentDate emptySummary tasks details = Throw undefinedFind
      <-> tasks <> []).
Proof.
  assert (Hstat : forall summary,
            taskStatistics currentDate summary tasks details = Throw undefinedFind
            <-> results summary = None /\ tasks <> []).
  { intros summary. destruct (results summary) as [rs|] eqn:Hrs.
    - destruct (taskStatistics_present M currentDate summary rs tasks details Hrs)
        as (stats & -> & _).
      split; [discriminate|intros [? _]; discriminate].
    - unfold taskStatistics. rewrite Hrs, tasksCompleted_absent.
      destruct tasks as [|task tasks']; simpl.
      + split; [discriminate|intros [_ H]; now contradiction H].
      + split; [intros _; split; [reflexivity|discriminate]|reflexivity]. }
  split; [|split; [|split; [|split; [|split; [exact Hstat|]]]]].
  - intros [rs|].
    + rewrite tasksCompleted_present. split; [discriminate|intros [? _]; discriminate].
    + rewrite tasksCompleted_absent. destruct tasks.
      * split; [discriminate|intros [_ H]; now contradiction H].
      * split; [intros _; split; [reflexivity|discriminate]|reflexivity].
  - intros [rs|].
    + rewrite tasksNotDone_present. split; [discriminate|intros [? _]; discriminate].
    + rewrite tasksNotDone_absent.
      destruct (existsb _ tasks) eqn:Hex.
      * apply existsb_exists in Hex. split; [intros _; split; [reflexivity|exact Hex]|reflexivity].
      * split; [discriminate|]. intros [_ Hsome].
        apply existsb_exists in Hsome. congruence.
  - intros [rs|].
    + rewrite tasksFuture_present. split; [discriminate|intros [? _]; discriminate].
    + rewrite tasksFuture_absent.
      destruct (existsb _ tasks) eqn:Hex.
      * apply existsb_exists in Hex. split; [intros _; split; [reflexivity|exact Hex]|reflexivity].
      * split; [discriminate|]. intros [_ Hsome].
        apply existsb_exists in Hsome. congruence.
  - intros summary. split.
    + intros (stats & Hstats).
      destruct (results summary) as [rs|] eqn:Hrs; [right; now exists rs|].
      left. destruct tasks as [|task tasks']; [reflexivity|].
      assert (Hthrow : taskStatistics currentDate summary (task :: tasks') details
                       = Throw undefinedFind)
        by (apply Hstat; split; [exact Hrs|discriminate]).
      congruence.
    + intros [->|(rs & Hrs)].
      * unfold taskStatistics. destruct (results summary); simpl; eexists; reflexivity.
      * destruct (taskStatistics_present M currentDate summary rs tasks details Hrs)
          as (stats & Hstats & _).
        now exists stats.
  - rewrite Hstat. simpl. split; [intros [_ H]; exact H|intros H; now split].
Qed.

(** ** Remote Data Fetcher *)

Lemma promiseAll_rejected {A B C D : Type} (p1 : Settled A) (p2 : Settled B)
    (p3 : Settled C) (p4 : Settled D) :
  someRejected p1 p2 p3 p4 -> exists reason, promiseAll p1 p2 p3 p4 = Rejected reason.
Proof.
  unfold someRejected.
  destruct p1 as [a|r1], p2 as [b|r2], p3 as [c|r3], p4 as [d|r4]; simpl;
    intros H; try (eexists; reflexivity);
    repeat (destruct H as [H|H]; try discriminate); discriminate.
Qed.

(** C7: whatever the outcome, the callback sets the loading flag to true
    before the batch and to false after it, touching the flag nowhere in
    between, so the flag ends false.  When some request rejects, exactly
    one notification, the generic error, fires between the two writes and
    no fetched view state changes; from the initial state the summary is
    still the empty object and the task, detail and event lists are still
    empty. *)
Theorem fetch_loading_and_rejection (M : Moment) (C : Collation)
    (propsCourseId now : Z)
    (summaryRequest : Settled StudentSummary)
    (tasksRequest : Settled (list CourseTask))
    (profileRequest : Settled ProfileInfo)
    (eventsRequest : Settled (list CourseEvent))
    (w0 : World) :
  let w := fetchCallback propsCourseId now summaryRequest tasksRequest
             profileRequest eventsRequest w0 in
  (loading (view w) = false
   /\ exists between,
        log w = log w0 ++ SetLoading true :: AwaitBatch :: between ++ [SetLoading false]
        /\ List.filter isSetLoading between = [])
  /\ (someRejected summaryRequest tasksRequest profileRequest eventsRequest ->
        log w = log w0 ++ [SetLoading true; AwaitBatch;
                           MessageError genericError; SetLoading false]
        /\ length (List.filter isMessageError (log w))
           = S (length (List.filter isMessageError (log w0)))
        /\ studentSummary (view w) = studentSummary (view w0)
        /\ courseTasks (view w) = courseTasks (view w0)
        /\ tasksDetail (view w) = tasksDetail (view w0)
        /\ nextEvents (view w) = nextEvents (view w0)
        /\ (w0 = initialWorld ->
              studentSummary (view w) = emptySummary
              /\ courseTasks (view w) = []
              /\ tasksDetail (view w) = []
              /\ nextEvents (view w) = [])).
Proof.
  intros w. subst w. unfold fetchCallback. split.
  - split; [reflexivity|].
    destruct (promiseAll summaryRequest tasksRequest profileRequest eventsRequest)
      as [[[[summary fetchedTasks] statisticsCourses] courseEvents]|reason]; simpl.
    + exists []. rewrite <- !app_assoc. split; reflexivity.
    + exists [MessageError genericError]. rewrite <- !app_assoc. split; reflexivity.
  - intros Hrejected.
    destruct (promiseAll_rejected _ _ _ _ Hrejected) as (reason & ->). simpl.
    rewrite <- !app_assoc. simpl.
    split; [reflexivity|]. split.
    + rewrite List.filter_app, length_app. simpl. lia.
    + do 4 (split; [reflexivity|]). intros ->. repeat split.
Qed.

Lemma fetch_loading_and_rejection_witness :
  let w := @fetchCallback calendarMoment lexicographicCollation 12 1706745600000
             (Fulfilled (mkStudentSummary (Some [mkTaskResult 1 90]) (Some 90) (Some 4) (Some true)))
             (Fulfilled [testScenarioTask 1 "Quiz" "url"])
             (Rejected "Network Error")
             (Fulfilled [])
             initialWorld in
  log w = [SetLoading true; AwaitBatch; MessageError genericError; SetLoading false]
  /\ length (List.filter isMessageError (log w)) = 1%nat
  /\ studentSummary (view w) = emptySummary
  /\ courseTasks (view w) = []
  /\ tasksDetail (view w) = []
  /\ nextEvents (view w) = []
  /\ loading (view w) = false.
Proof.
  intros w.
  destruct (fetch_loading_and_rejection calendarMoment lexicographicCollation
              12 1706745600000
              (Fulfilled (mkStudentSummary (Some [mkTaskResult 1 90]) (Some 90) (Some 4) (Some true)))
              (Fulfilled [testScenarioTask 1 "Quiz" "url"])
              (Rejected "Network Error")
              (Fulfilled [])
              initialWorld) as [[Hloading _] Hrejected].
  destruct Hrejected as (Hlog & Hcount & _ & _ & _ & _ & Hinitial).
  { right. right. left. reflexivity. }
  destruct (Hinitial eq_refl) as (Hs & Ht & Hd & He).
  repeat split; assumption.
Defined.

(** ** Display-count preference *)

(** C8, refuted as stated: with the empty string stored under the key, the
    function returns 1 and not the number the empty string converts to. *)
Lemma stored_empty_string_reads_one :
  let localStorage : gmap string string := {[ preferenceKey := EmptyString ]} in
  getItem localStorage preferenceKey = Some EmptyString
  /\ @showCountEventsOnStudentsDashboard decimalNumber localStorage = Some 1
  /\ @showCountEventsOnStudentsDashboard decimalNumber localStorage
     <> @StringToNumber decimalNumber EmptyString.
Proof.
  split; [reflexivity|]. split; [reflexivity|]. vm_compute. discriminate.
Qed.

(** C8, amended: when the key is absent the function returns the number 1;
    when a string that is not empty is stored it returns that string
    converted to a number; when the empty string is stored it returns 1. *)
Theorem showCount_reads_preference (N : JsNumber) (localStorage : gmap string string) :
  (getItem localStorage preferenceKey = None ->
     showCountEventsOnStudentsDashboard localStorage = numberOfZ 1)
  /\ (forall s, getItem localStorage preferenceKey = Some s -> s <> EmptyString ->
        showCountEventsOnStudentsDashboard localStorage = StringToNumber s)
  /\ (getItem localStorage preferenceKey = Some EmptyString ->
        showCountEventsOnStudentsDashboard localStorage = numberOfZ 1).
Proof.
  unfold showCountEventsOnStudentsDashboard. split; [|split].
  - intros ->. reflexivity.
  - intros s -> Hs. simpl. apply String.eqb_neq in Hs. rewrite Hs. reflexivity.
  - intros ->. reflexivity.
Qed.

Lemma showCount_reads_preference_witness :
  @showCountEventsOnStudentsDashboard decimalNumber ∅ = Some 1
  /\ @showCountEventsOnStudentsDashboard decimalNumber {[ preferenceKey := "25" ]}
     = Some 25.
Proof.
  split.
  - apply (proj1 (showCount_reads_preference decimalNumber ∅)). reflexivity.
  - apply (proj1 (proj2 (showCount_reads_preference decimalNumber
                           {[ preferenceKey := "25" ]})) "25").
    + reflexivity.
    + discriminate.
Defined.

(** * Further properties of the page *)

(** ** Event Deriver *)

(** X1: deriving the events of two task lists put end to end gives the
    events of the first followed by the events of the second. *)
Theorem tasksToEvents_app (tasks1 tasks2 : list CourseTask) :
  tasksToEvents (tasks1 ++ tasks2) = tasksToEvents tasks1 ++ tasksToEvents tasks2.
Proof.
  rewrite !tasksToEvents_concat, map_app, concat_app. reflexivity.
Qed.

Lemma pushTaskEvents_events (task : CourseTask) (e : CourseEvent) :
  In e (pushTaskEvents [] task) ->
  exists type, e = createCourseEventFromTask task type
    /\ (type = task_type task \/ type = TaskTypes.deadline).
Proof.
  unfold pushTaskEvents.
  destruct (String.eqb (task_type task) TaskTypes.test) eqn:Htest; simpl.
  - apply String.eqb_eq in Htest. intros [<-|[]].
    exists TaskTypes.test. split; [reflexivity|]. left. now symmetry.
  - intros [<-|[<-|[]]].
    + exists (task_type task). split; [reflexivity|]. now left.
    + exists TaskTypes.deadline. split; [reflexivity|]. now right.
Qed.

(** X2: every derived event belongs to a task of the list; its type is the
    task's type or "deadline", and its dateTime is the task's student end
    date when the event's type is "deadline" and the student start date
    otherwise, the empty string standing for an absent or empty date. *)
Theorem derived_event_date_rule (tasks : list CourseTask) :
  Forall (fun e =>
    exists task, In task tasks
      /\ event_id e = task_id task
      /\ (event_type (event e) = task_type task
          \/ event_type (event e) = TaskTypes.deadline)
      /\ dateTime e = orEmpty (relevantDate task (event_type (event e))))
    (tasksToEvents tasks).
Proof.
  apply List.Forall_forall. intros e He.
  rewrite tasksToEvents_concat in He. apply in_concat in He.
  destruct He as (evs & Hevs & He). apply in_map_iff in Hevs.
  destruct Hevs as (task & <- & Htask). rewrite tasksToEvents_single in He.
  destruct (pushTaskEvents_events task e He) as (type & -> & Htype).
  exists task. repeat split; [exact Htask|exact Htype].
Qed.

(** X3: no task is dropped: the list of derived events holds, for every
    task of the list, its closing event, of type "test" for a test task and
    of type "deadline" for any other, and for a task that is not a test
    also the event of the task's own type. *)
Theorem tasksToEvents_covers_tasks (tasks : list CourseTask) (task : CourseTask) :
  In task tasks ->
  In (createCourseEventFromTask task
        (if String.eqb (task_type task) TaskTypes.test
         then TaskTypes.test else TaskTypes.deadline)) (tasksToEvents tasks)
  /\ (task_type task <> TaskTypes.test ->
        In (createCourseEventFromTask task (task_type task)) (tasksToEvents tasks)).
Proof.
  intros Hin. rewrite tasksToEvents_concat.
  assert (Hsub : forall e, In e (tasksToEvents [task]) ->
            In e (concat (map (fun t => tasksToEvents [t]) tasks))).
  { intros e He. apply in_concat. exists (tasksToEvents [task]).
    split; [|exact He]. apply in_map_iff. now exists task. }
  split.
  - apply Hsub. rewrite tasksToEvents_single. unfold pushTaskEvents.
    apply in_or_app. right. now left.
  - intros Htype. apply Hsub. rewrite (tasksToEvents_non_test task Htype).
    now left.
Qed.

Lemma tasksToEvents_covers_tasks_witness :
  In (createCourseEventFromTask (deadlineScenarioTask 2 "Task" "url") TaskTypes.deadline)
     (tasksToEvents [testScenarioTask 1 "Quiz" "url"; deadlineScenarioTask 2 "Task" "url"]).
Proof.
  apply (proj1 (tasksToEvents_covers_tasks
                  [testScenarioTask 1 "Quiz" "url"; deadlineScenarioTask 2 "Task" "url"]
                  (deadlineScenarioTask 2 "Task" "url")
                  (or_intror (or_introl eq_refl)))).
Defined.

(** ** Event Merger *)

Lemma filter_perm {A : Type} (keep : A -> bool) (l l' : list A) :
  Permutation l l' -> Permutation (List.filter keep l) (List.filter keep l').
Proof.
  induction 1 as [|x l l' Hperm IH|x y l|l l' l'' H1 IH1 H2 IH2]; simpl.
  - constructor.
  - destruct (keep x); [now constructor|exact IH].
  - destruct (keep x), (keep y); try reflexivity. apply perm_swap.
  - now transitivity (List.filter keep l').
Qed.

(** X4: whatever the comparator, the merged list is a rearrangement of
    the fetched and derived events whose dateTime is a valid date after the
    start of today: none of them is lost, repeated or invented. *)
Theorem mergeEvents_keeps_upcoming (M : Moment) (C : Collation) (now : Z)
    (fetched derived : list CourseEvent) :
  Permutation (mergeEvents now fetched derived)
              (List.filter (isUpcoming now) (fetched ++ derived))
  /\ forall e, In e (mergeEvents now fetched derived)
       <-> (In e fetched \/ In e derived) /\ isUpcoming now e = true.
Proof.
  assert (Hperm : Permutation (mergeEvents now fetched derived)
                    (List.filter (isUpcoming now) (fetched ++ derived))).
  { unfold mergeEvents. apply filter_perm. symmetry. apply arraySort_perm. }
  split; [exact Hperm|]. intros e. split.
  - intros He. apply (Permutation_in _ Hperm) in He.
    apply filter_In in He. destruct He as [He Hup].
    apply in_app_or in He. now split.
  - intros [He Hup]. apply (Permutation_in _ (Permutation_sym Hperm)).
    apply filter_In. split; [now apply in_or_app|exact Hup].
Qed.

(** X5: when [moment('')] is an invalid date, the event derived from a
    task for a date the task lacks is in no list of upcoming events. *)
Theorem dateless_event_never_upcoming (M : Moment) (C : Collation) (now : Z)
    (fetched derived : list CourseEvent) (task : CourseTask) (type : string) :
  moment EmptyString = None ->
  relevantDate task type = None ->
  ~ In (createCourseEventFromTask task type) (mergeEvents now fetched derived).
Proof.
  intros Hempty Hdate Hin. unfold mergeEvents in Hin.
  apply filter_In in Hin. destruct Hin as [_ Hafter].
  unfold createCourseEventFromTask, relevantDate in *. simpl in Hafter.
  rewrite Hdate in Hafter. simpl in Hafter. rewrite Hempty in Hafter.
  discriminate.
Qed.

Lemma dateless_event_never_upcoming_witness :
  let task := mkCourseTask 7 "Task" "newtask" (Some "2024-03-01") None "url7" in
  ~ In (createCourseEventFromTask task TaskTypes.deadline)
       (@computeNextEvents calendarMoment lexicographicCollation 0 [] [task]).
Proof.
  intros task.
  apply (dateless_event_never_upcoming calendarMoment lexicographicCollation 0
           [] (tasksToEvents [task]) task TaskTypes.deadline); reflexivity.
Defined.

Lemma insertSorted_filter {A : Type} (compareFn : A -> A -> Z) (keep : A -> bool)
    (x : A) (l : list A) :
  (forall y, In y l -> keep x = true -> keep y = true -> (compareFn x y <=? 0) = true) ->
  List.filter keep (insertSorted compareFn x l) = List.filter keep (x :: l).
Proof.
  induction l as [|y l IH]; intros Hclass; [reflexivity|].
  simpl insertSorted. destruct (compareFn x y <=? 0) eqn:Hcmp; [reflexivity|].
  assert (IH' : List.filter keep (insertSorted compareFn x l) = List.filter keep (x :: l))
    by (apply IH; intros y' Hy'; apply Hclass; now right).
  simpl. simpl in IH'. rewrite IH'.
  destruct (keep x) eqn:Hx, (keep y) eqn:Hy; try reflexivity.
  rewrite (Hclass y (or_introl eq_refl) eq_refl Hy) in Hcmp. discriminate.
Qed.

Lemma arraySort_filter {A : Type} (compareFn : A -> A -> Z) (keep : A -> bool)
    (l : list A) :
  (forall x y, In x l -> In y l -> keep x = true -> keep y = true ->
     (compareFn x y <=? 0) = true) ->
  List.filter keep (arraySort compareFn l) = List.filter keep l.
Proof.
  induction l as [|x l IH]; intros Hclass; [reflexivity|].
  simpl arraySort. rewrite insertSorted_filter.
  - simpl. rewrite IH; [reflexivity|]. intros; apply Hclass; try assumption; now right.
  - intros y Hy. apply Hclass; [now left|].
    right. eapply Permutation_in; [symmetry; apply arraySort_perm|exact Hy].
Qed.

Lemma filter_swap {A : Type} (f g : A -> bool) (l : list A) :
  List.filter f (List.filter g l) = List.filter g (List.filter f l).
Proof.
  induction l as [|x l IH]; simpl; [reflexivity|].
  destruct (f x) eqn:Hf, (g x) eqn:Hg; simpl; rewrite ?Hf, ?Hg, IH; reflexivity.
Qed.

(** X6: the sort is stable on the page's events: when a string compares
    as not greater than itself, the upcoming events that share a dateTime
    come out in the order they went in, fetched events before derived
    ones. *)
Theorem mergeEvents_stable (M : Moment) (C : Collation) (now : Z)
    (fetched derived : list CourseEvent) (date : string) :
  (forall s, localeCompare s s <= 0) ->
  List.filter (fun e => String.eqb (dateTime e) date) (mergeEvents now fetched derived)
  = List.filter (fun e => String.eqb (dateTime e) date)
      (List.filter (isUpcoming now) fetched)
    ++ List.filter (fun e => String.eqb (dateTime e) date)
         (List.filter (isUpcoming now) derived).
Proof.
  intros Hrefl. unfold mergeEvents.
  rewrite filter_swap, arraySort_filter.
  - rewrite List.filter_app, !(filter_swap _ (isUpcoming now)).
    rewrite List.filter_app. reflexivity.
  - intros x y _ _ Hx Hy. apply String.eqb_eq in Hx, Hy.
    unfold byDateTime. rewrite Hx, Hy. apply Z.leb_le. apply Hrefl.
Qed.

Lemma mergeEvents_stable_witness :
  let fetched :=
    [ mkCourseEvent 3 "2024-03-01" (mkEventInfo "lecture" "Intro" "url3") ] in
  let derived :=
    tasksToEvents [mkCourseTask 7 "Task" "newtask" (Some "2024-03-01") None "url7"] in
  map event_id
    (List.filter (fun e => String.eqb (dateTime e) "2024-03-01")
       (@mergeEvents calendarMoment lexicographicCollation 0 fetched derived))
  = [3; 7].
Proof.
  intros fetched derived.
  rewrite (mergeEvents_stable calendarMoment lexicographicCollation 0
             fetched derived "2024-03-01").
  - reflexivity.
  - intros s. simpl. unfold lexicographicCompare.
    destruct (String.compare s s) eqn:Hcmp; try lia.
    pose proof (String.compare_antisym s s) as Hanti.
    rewrite Hcmp in Hanti. discriminate.
Defined.

(** X7: upcoming events only drop off as days pass: the list computed on
    a later day is the list of an earlier day filtered by the later day's
    start. *)
Theorem mergeEvents_later_day (M : Moment) (C : Collation) (now later : Z)
    (fetched derived : list CourseEvent) :
  startOfDay now <= startOfDay later ->
  mergeEvents later fetched derived
  = List.filter (isUpcoming later) (mergeEvents now fetched derived).
Proof.
  intros Hle. unfold mergeEvents.
  set (sorted := arraySort byDateTime (fetched ++ derived)). clearbody sorted.
  induction sorted as [|e l IH]; simpl; [reflexivity|].
  fold (isUpcoming later e). fold (isUpcoming now e).
  destruct (isUpcoming later e) eqn:Hlater.
  - assert (Hnow : isUpcoming now e = true).
    { unfold isUpcoming, isAfter in *.
      destruct (moment (dateTime e)); [|discriminate].
      apply Z.ltb_lt in Hlater. apply Z.ltb_lt. lia. }
    rewrite Hnow. simpl. fold (isUpcoming later e). rewrite Hlater.
    f_equal. exact IH.
  - destruct (isUpcoming now e); simpl.
    + fold (isUpcoming later e). rewrite Hlater. exact IH.
    + exact IH.
Qed.

Lemma mergeEvents_later_day_witness :
  let fetched :=
    [ mkCourseEvent 3 "2024-05-20" (mkEventInfo "lecture" "Intro" "url3");
      mkCourseEvent 4 "2024-01-02" (mkEventInfo "lecture" "Past" "url4") ] in
  @mergeEvents calendarMoment lexicographicCollation 1706745600000 fetched []
  = List.filter (@isUpcoming calendarMoment 1706745600000)
      (@mergeEvents calendarMoment lexicographicCollation 0 fetched []).
Proof.
  intros fetched.
  apply (mergeEvents_later_day calendarMoment lexicographicCollation
           0 1706745600000 fetched []).
  vm_compute. discriminate.
Defined.

(** ** Task Classifier *)

Lemma date_tests_exclusive (M : Moment) (this input : option Z) :
  (forall t, startOfDay t <= endOfDay t) ->
  isBeforeDate this input = true -> isAfterDate this input = false.
Proof.
  intros Hday. unfold isBeforeDate, isAfterDate.
  destruct this as [e|], input as [c|]; try discriminate.
  intros Hbefore. apply Z.ltb_lt in Hbefore. apply Z.ltb_ge.
  specialize (Hday e). lia.
Qed.

(** X8: with a result list present and a day that starts no later than it
    ends, the three buckets and the tasks left unclassified (no result, end
    date neither before nor after the current day) account for every task
    exactly once: their sizes add up to the length of the task list. *)
Theorem classifier_counts (M : Moment) (currentDate : string)
    (summary : StudentSummary) (rs : list TaskResult)
    (tasks : list CourseTask) (details : list StudentTasksDetail) :
  (forall t, startOfDay t <= endOfDay t) ->
  results summary = Some rs ->
  exists stats,
    taskStatistics currentDate summary tasks details = Normal stats
    /\ (length (completed stats) + length (notDone stats) + length (future stats)
        + length (List.filter (unclassified currentDate rs) tasks)
        = length tasks)%nat.
Proof.
  intros Hday Hrs.
  destruct (taskStatistics_present M currentDate summary rs tasks details Hrs)
    as (stats & Hstats & Hc & Hn & Hf).
  exists stats. split; [exact Hstats|].
  rewrite <- (length_map stat_task (completed stats)), Hc.
  rewrite <- (length_map stat_task (notDone stats)), Hn.
  rewrite <- (length_map stat_task (future stats)), Hf.
  clear Hstats Hc Hn Hf. unfold unclassified.
  induction tasks as [|task tasks IH]; simpl; [reflexivity|].
  pose proof (date_tests_exclusive M (momentOf (studentEndDate task))
                (moment currentDate) Hday) as Hexcl.
  destruct (hasResultb rs task); simpl.
  - rewrite !andb_false_r. simpl. lia.
  - rewrite !andb_true_r.
    destruct (isBeforeDate _ _); simpl.
    + rewrite (Hexcl eq_refl). simpl. lia.
    + destruct (isAfterDate _ _); simpl; lia.
Qed.

Lemma classifier_counts_witness :
  let tasks :=
    [ mkCourseTask 1 "Done" "newtask" (Some "2024-01-01") (Some "2024-01-05") "u1";
      mkCourseTask 2 "Late" "newtask" (Some "2024-01-01") (Some "2024-01-08") "u2";
      mkCourseTask 3 "Today" "newtask" (Some "2024-01-01") (Some "2024-01-10") "u3";
      mkCourseTask 4 "Next" "newtask" (Some "2024-01-15") (Some "2024-01-20") "u4" ] in
  let summary := mkStudentSummary (Some [mkTaskResult 1 90]) (Some 90) (Some 4) (Some true) in
  exists stats,
    @taskStatistics calendarMoment "2024 01 10" summary tasks [] = Normal stats
    /\ (length (completed stats) + length (notDone stats) + length (future stats) + 1
        = 4)%nat.
Proof.
  intros tasks summary.
  apply (classifier_counts calendarMoment "2024 01 10" summary
           [mkTaskResult 1 90] tasks [] calendar_day_bounds eq_refl).
Defined.

Lemma filterC_In {A : Type} (callback : A -> Completion bool) (l kept : list A) :
  filterC callback l = Normal kept -> forall x, In x kept -> In x l.
Proof.
  revert kept. induction l as [|y l IH]; simpl; intros kept Hkept x Hx.
  - injection Hkept as <-. exact Hx.
  - destruct (callback y) as [keep|e]; [|discriminate]. simpl in Hkept.
    destruct (filterC callback l) as [rest|e]; [|discriminate]. simpl in Hkept.
    injection Hkept as <-. destruct keep.
    + destruct Hx as [<-|Hx]; [now left|right; now apply (IH rest)].
    + right. now apply (IH rest).
Qed.

(** X9: whether or not the result list is present, a notDone bucket that
    is computed holds only tasks of the list, each with null comment and PR
    link and score 0, and a future bucket that is computed holds only
    tasks of the list, each with null comment, PR link and score. *)
Theorem date_buckets_enrichment (M : Moment) (currentDate : string)
    (rs : option (list TaskResult)) (tasks : list CourseTask) :
  (forall bucket, tasksNotDone currentDate rs tasks = Normal bucket ->
     Forall (fun entry => In (stat_task entry) tasks
                          /\ comment entry = Null
                          /\ githubPrUri entry = Null
                          /\ score entry = Value 0) bucket)
  /\ (forall bucket, tasksFuture currentDate rs tasks = Normal bucket ->
        Forall (fun entry => In (stat_task entry) tasks
                             /\ comment entry = Null
                             /\ githubPrUri entry = Null
                             /\ score entry = Null) bucket).
Proof.
  split; intros bucket Hbucket.
  - unfold tasksNotDone in Hbucket.
    destruct (filterC _ tasks) as [kept|e] eqn:Hkept; [|discriminate].
    simpl in Hbucket. injection Hbucket as <-.
    apply List.Forall_forall. intros entry Hentry.
    apply in_map_iff in Hentry. destruct Hentry as (task & <- & Htask).
    simpl. repeat split. now apply (filterC_In _ _ _ Hkept).
  - unfold tasksFuture in Hbucket.
    destruct (filterC _ tasks) as [kept|e] eqn:Hkept; [|discriminate].
    simpl in Hbucket. injection Hbucket as <-.
    apply List.Forall_forall. intros entry Hentry.
    apply in_map_iff in Hentry. destruct Hentry as (task & <- & Htask).
    simpl. repeat split. now apply (filterC_In _ _ _ Hkept).
Qed.

Lemma date_buckets_enrichment_witness :
  Forall (fun entry =>
            In (stat_task entry)
               [mkCourseTask 2 "Late" "newtask" None (Some "2024-01-08") "u2"]
            /\ comment entry = Null /\ githubPrUri entry = Null
            /\ score entry = Value 0)
    [ {| stat_task := mkCourseTask 2 "Late" "newtask" None (Some "2024-01-08") "u2";
         comment := Null; githubPrUri := Null; score := Value 0 |} ].
Proof.
  apply (proj1 (date_buckets_enrichment calendarMoment "2024 01 10" (Some [])
                  [mkCourseTask 2 "Late" "newtask" None (Some "2024-01-08") "u2"])).
  reflexivity.
Defined.

(** X10: the enrichment of the completed bucket is keyed by the task's
    name alone: two completed entries whose tasks have the same name carry
    the same comment, PR link and score, whatever their ids. *)
Theorem completed_enrichment_by_name (rs : option (list TaskResult))
    (tasks : list CourseTask) (details : list StudentTasksDetail)
    (bucket : list TaskStat) (entry1 entry2 : TaskStat) :
  tasksCompleted rs tasks details = Normal bucket ->
  In entry1 bucket -> In entry2 bucket ->
  task_name (stat_task entry1) = task_name (stat_task entry2) ->
  comment entry1 = comment entry2
  /\ githubPrUri entry1 = githubPrUri entry2
  /\ score entry1 = score entry2.
Proof.
  intros Hbucket H1 H2 Hname. unfold tasksCompleted in Hbucket.
  destruct (filterC _ tasks) as [kept|e]; [|discriminate].
  simpl in Hbucket. injection Hbucket as <-.
  apply in_map_iff in H1, H2.
  destruct H1 as (task1 & <- & _), H2 as (task2 & <- & _).
  rewrite !enrichCompleted_task in Hname. unfold enrichCompleted.
  rewrite Hname. now destruct (List.find _ details).
Qed.

Lemma completed_enrichment_by_name_witness :
  let task1 := mkCourseTask 1 "Quiz" "test" (Some "2024-01-01") None "u1" in
  let task2 := mkCourseTask 2 "Quiz" "test" (Some "2024-02-01") None "u2" in
  let details := [mkStudentTasksDetail "Quiz" (Value "ok") Null (Value 80)] in
  score (enrichCompleted details task1) = score (enrichCompleted details task2).
Proof.
  intros task1 task2 details.
  apply (completed_enrichment_by_name
           (Some [mkTaskResult 1 80; mkTaskResult 2 40]) [task1; task2] details
           [enrichCompleted details task1; enrichCompleted details task2]
           (enrichCompleted details task1) (enrichCompleted details task2)).
  - reflexivity.
  - now left.
  - right. now left.
  - reflexivity.
Defined.

(** ** Remote Data Fetcher *)

(** X11: the detail list of the current course is empty when the profile
    has no statistics or none for the course; otherwise it is the task list
    of the first statistics entry with the course's id. *)
Theorem tasksDetailCurrentCourse_cases (statisticsCourses : ProfileInfo)
    (propsCourseId : Z) :
  match studentStats statisticsCourses with
  | None => tasksDetailCurrentCourse statisticsCourses propsCourseId = []
  | Some stats =>
      ((forall course, In course stats -> courseId course <> propsCourseId)
       /\ tasksDetailCurrentCourse statisticsCourses propsCourseId = [])
      \/ (exists before course after,
            stats = before ++ course :: after
            /\ courseId course = propsCourseId
            /\ (forall other, In other before -> courseId other <> propsCourseId)
            /\ tasksDetailCurrentCourse statisticsCourses propsCourseId = tasks course)
  end.
Proof.
  unfold tasksDetailCurrentCourse.
  destruct (studentStats statisticsCourses) as [stats|]; [|reflexivity].
  induction stats as [|course stats IH]; simpl.
  - left. split; [intros course []|reflexivity].
  - destruct (courseId course =? propsCourseId) eqn:Hid.
    + right. exists [], course, stats. apply Z.eqb_eq in Hid.
      repeat split; [exact Hid|intros other []].
    + apply Z.eqb_neq in Hid. destruct IH as [[Hnone Hempty]|Hsome].
      * left. split; [|exact Hempty].
        intros other [<-|Hother]; [exact Hid|now apply Hnone].
      * right. destruct Hsome as (before & found & after & -> & Hfound & Hbefore & Htasks).
        exists (course :: before), found, after.
        repeat split; [exact Hfound| |exact Htasks].
        intros other [<-|Hother]; [exact Hid|now apply Hbefore].
Qed.

Lemma runSetters_normal (rerender : ViewState -> Completion unit)
    (setters : list (World -> World)) (w : World) :
  Forall (fun v => exists u, rerender v = Normal u) (viewsAfter setters w) ->
  runSetters rerender setters w
  = (Normal tt, fold_left (fun acc set => set acc) setters w).
Proof.
  revert w. induction setters as [|set rest IH]; intros w Hall; simpl.
  - reflexivity.
  - simpl in Hall. inversion Hall as [|? ? (u & Hu) Hrest]; subst.
    rewrite Hu. now apply IH.
Qed.

Lemma runSetters_throw (rerender : ViewState -> Completion unit)
    (setters : list (World -> World)) (w : World) :
  (forall set w', In set setters -> log (set w') = log w') ->
  Exists (fun v => exists e, rerender v = Throw e) (viewsAfter setters w) ->
  exists e w', runSetters rerender setters w = (Throw e, w') /\ log w' = log w.
Proof.
  intros Hlog. revert w.
  induction setters as [|set rest IH]; intros w Hex; simpl in *.
  - inversion Hex.
  - destruct (rerender (view (set w))) as [u|e] eqn:Hrender.
    + inversion Hex as [? ? (e & He)|? ? Hrest]; subst; [congruence|].
      destruct (IH (fun s w' Hs => Hlog s w' (or_intror Hs)) (set w) Hrest)
        as (e & w' & Hrun & Hw').
      exists e, w'. split; [exact Hrun|].
      rewrite Hw'. apply Hlog. now left.
    + exists e, (set w). split; [reflexivity|]. apply Hlog. now left.
Qed.

Lemma fulfilledSetters_log (M : Moment) (C : Collation) (propsCourseId now : Z)
    (summary : StudentSummary) (fetchedTasks : list CourseTask)
    (statisticsCourses : ProfileInfo) (courseEvents : list CourseEvent)
    (set : World -> World) (w : World) :
  In set (fulfilledSetters propsCourseId now summary fetchedTasks
            statisticsCourses courseEvents) ->
  log (set w) = log w.
Proof.
  simpl. intros [<-|[<-|[<-|[<-|[]]]]]; reflexivity.
Qed.

(** X12: for a fulfilled batch, whatever a setter's re-render does: when
    no re-render of the views the setters go through throws, the callback
    logs setLoading(true), the batch and setLoading(false) and nothing
    else, and the view holds exactly what was fetched, whatever it held
    before; when one of them throws, the catch fires the generic error
    once between the two loading writes.  With batched updates, and on any
    rejected batch, the callback is the one without re-renders. *)
Theorem fetch_fulfilled_rendering (M : Moment) (C : Collation)
    (rerender : ViewState -> Completion unit) (propsCourseId now : Z)
    (summary : StudentSummary) (fetchedTasks : list CourseTask)
    (statisticsCourses : ProfileInfo) (courseEvents : list CourseEvent)
    (w0 : World) :
  let views :=
    viewsAfter (fulfilledSetters propsCourseId now summary fetchedTasks
                  statisticsCourses courseEvents)
      (awaitBatch (setLoading true w0)) in
  let w := fetchCallbackRendering rerender propsCourseId now (Fulfilled summary)
             (Fulfilled fetchedTasks) (Fulfilled statisticsCourses)
             (Fulfilled courseEvents) w0 in
  (Forall (fun v => exists u, rerender v = Normal u) views ->
     log w = log w0 ++ [SetLoading true; AwaitBatch; SetLoading false]
     /\ view w
        = {| studentSummary := summary;
             courseTasks := fetchedTasks;
             tasksDetail := tasksDetailCurrentCourse statisticsCourses propsCourseId;
             nextEvents := mergeEvents now courseEvents (tasksToEvents fetchedTasks);
             loading := false |})
  /\ (Exists (fun v => exists e, rerender v = Throw e) views ->
        log w = log w0 ++ [SetLoading true; AwaitBatch;
                           MessageError genericError; SetLoading false]
        /\ loading (view w) = false)
  /\ (forall (summaryRequest : Settled StudentSummary)
        (tasksRequest : Settled (list CourseTask))
        (profileRequest : Settled ProfileInfo)
        (eventsRequest : Settled (list CourseEvent)),
        fetchCallbackRendering batchedRender propsCourseId now summaryRequest
          tasksRequest profileRequest eventsRequest w0
        = fetchCallback propsCourseId now summaryRequest tasksRequest
            profileRequest eventsRequest w0
        /\ (someRejected summaryRequest tasksRequest profileRequest eventsRequest ->
              fetchCallbackRendering rerender propsCourseId now summaryRequest
                tasksRequest profileRequest eventsRequest w0
              = fetchCallback propsCourseId now summaryRequest tasksRequest
                  profileRequest eventsRequest w0)).
Proof.
  intros views w. subst views w. split; [|split].
  - intros Hall. unfold fetchCallbackRendering. cbn [promiseAll].
    rewrite (runSetters_normal _ _ _ Hall). simpl.
    rewrite <- !app_assoc. split; reflexivity.
  - intros Hex. unfold fetchCallbackRendering. cbn [promiseAll].
    destruct (runSetters_throw rerender _ _
                (fun set w' => fulfilledSetters_log M C propsCourseId now summary
                                 fetchedTasks statisticsCourses courseEvents set w')
                Hex) as (e & w' & -> & Hlog).
    simpl. rewrite Hlog. simpl. rewrite <- !app_assoc. split; reflexivity.
  - intros summaryRequest tasksRequest profileRequest eventsRequest. split.
    + unfold fetchCallbackRendering, fetchCallback.
      destruct (promiseAll _ _ _ _) as [[[[a b] c] d]|reason]; reflexivity.
    + intros Hrejected. unfold fetchCallbackRendering, fetchCallback.
      destruct (promiseAll_rejected _ _ _ _ Hrejected) as (reason & ->).
      reflexivity.
Qed.

Lemma fetch_fulfilled_rendering_witness :
  let summary := mkStudentSummary (Some [mkTaskResult 1 90]) (Some 90) (Some 4) (Some true) in
  let w := @fetchCallbackRendering calendarMoment lexicographicCollation
             (@classifierRender calendarMoment "2024 01 10") 12 0
             (Fulfilled summary) (Fulfilled [testScenarioTask 1 "Quiz" "url"])
             (Fulfilled (mkProfileInfo None)) (Fulfilled []) initialWorld in
  log w = [SetLoading true; AwaitBatch; SetLoading false]
  /\ studentSummary (view w) = summary
  /\ courseTasks (view w) = [testScenarioTask 1 "Quiz" "url"].
Proof.
  intros summary.
  destruct (fetch_fulfilled_rendering calendarMoment lexicographicCollation
              (@classifierRender calendarMoment "2024 01 10") 12 0
              summary [testScenarioTask 1 "Quiz" "url"] (mkProfileInfo None) []
              initialWorld) as (Hnormal & _ & _).
  destruct Hnormal as (Hlog & Hview).
  { repeat constructor; exists tt; reflexivity. }
  split; [exact Hlog|]. rewrite Hview. split; reflexivity.
Defined.

(** ** Display-count preference *)

(** X13: a change of the display count survives a reload: when [String]
    of the value is not empty and converts back to the value, the page that
    mounts on the storage left by [changeCountEvents] starts in the state
    the change produced. *)
Theorem changeCountEvents_reload (N : JsNumber) (S : JsNumberString N)
    (value : number) (st : PreferenceState N) :
  NumberToString value <> EmptyString ->
  StringToNumber (NumberToString value) = value ->
  getItem (storage (changeCountEvents value st)) preferenceKey
  = Some (NumberToString value)
  /\ showCountEventsOnStudentsDashboard (storage (changeCountEvents value st)) = value
  /\ mountPreference N (storage (changeCountEvents value st))
     = changeCountEvents value st.
Proof.
  intros Hnonempty Hback.
  assert (Hget : getItem (storage (changeCountEvents value st)) preferenceKey
                 = Some (NumberToString value)).
  { unfold getItem, changeCountEvents, setItem. simpl. apply lookup_insert_eq. }
  assert (Hread : showCountEventsOnStudentsDashboard
                    (storage (changeCountEvents value st)) = value).
  { unfold showCountEventsOnStudentsDashboard. rewrite Hget. simpl.
    apply String.eqb_neq in Hnonempty. rewrite Hnonempty. simpl. exact Hback. }
  split; [exact Hget|]. split; [exact Hread|].
  unfold mountPreference. rewrite Hread. reflexivity.
Qed.

Lemma changeCountEvents_reload_witness :
  let st := mountPreference decimalNumber ∅ in
  @showCountEventsOnStudentsDashboard decimalNumber
    (storage (@changeCountEvents decimalNumber decimalNumberString (Some 25) st))
  = Some 25.
Proof.
  intros st.
  apply (changeCountEvents_reload decimalNumber decimalNumberString (Some 25) st).
  - vm_compute. discriminate.
  - reflexivity.
Defined.

(** X14: [changeCountEvents] writes one key: every other key of the
    storage reads as before, and of two changes in a row only the second
    is left. *)
Theorem changeCountEvents_one_key (N : JsNumber) (S : JsNumberString N)
    (value1 value2 : number) (st : PreferenceState N) :
  (forall key, key <> preferenceKey ->
     getItem (storage (changeCountEvents value2 st)) key = getItem (storage st) key)
  /\ changeCountEvents value2 (changeCountEvents value1 st)
     = changeCountEvents value2 st.
Proof.
  split.
  - intros key Hkey. unfold getItem, changeCountEvents, setItem. simpl.
    apply lookup_insert_ne. congruence.
  - unfold changeCountEvents, setItem. simpl. f_equal. apply insert_insert_eq.
Qed.

Lemma changeCountEvents_one_key_witness :
  getItem (storage (@changeCountEvents decimalNumber decimalNumberString (Some 3)
                      (@mkPreferenceState decimalNumber {[ "theme" := "dark" ]} (Some 1))))
          "theme"
  = Some "dark".
Proof.
  rewrite (proj1 (changeCountEvents_one_key decimalNumber decimalNumberString
                    (Some 3) (Some 3)
                    (@mkPreferenceState decimalNumber {[ "theme" := "dark" ]} (Some 1)))).
  - reflexivity.
  - discriminate.
Defined.

(** ** The render after a fetch *)

Lemma taskStatistics_outcome (M : Moment) (currentDate : string)
    (summary : StudentSummary) (tasks : list CourseTask)
    (details : list StudentTasksDetail) :
  (results summary = None /\ tasks <> [] ->
     taskStatistics currentDate summary tasks details = Throw undefinedFind)
  /\ (~ (results summary = None /\ tasks <> []) ->
        exists stats, taskStatistics currentDate summary tasks details = Normal stats).
Proof.
  destruct (results summary) as [rs|] eqn:Hrs.
  - destruct (taskStatistics_present M currentDate summary rs tasks details Hrs)
      as (stats & Hstats & _).
    split; [intros [? _]; discriminate|intros _; now exists stats].
  - unfold taskStatistics. rewrite Hrs, tasksCompleted_absent.
    destruct tasks as [|task rest]; simpl.
    + split; [intros [_ H]; now contradiction H|intros _; eexists; reflexivity].
    + split; [reflexivity|]. intros Hnot. exfalso. apply Hnot.
      split; [reflexivity|discriminate].
Qed.

Lemma classifierRender_outcome (M : Moment) (currentDate : string) (v : ViewState) :
  (results (studentSummary v) = None /\ courseTasks v <> [] ->
     classifierRender currentDate v = Throw undefinedFind)
  /\ (~ (results (studentSummary v) = None /\ courseTasks v <> []) ->
        classifierRender currentDate v = Normal tt).
Proof.
  unfold classifierRender, renderTaskStatistics.
  destruct (taskStatistics_outcome M currentDate (studentSummary v)
              (courseTasks v) (tasksDetail v)) as [Hthrow Hnormal].
  split.
  - intros H. now rewrite (Hthrow H).
  - intros H. destruct (Hnormal H) as (stats & ->). reflexivity.
Qed.

(** X15: on a page that holds no tasks yet, whether the setters re-render
    synchronously or are batched, a fulfilled batch ends in a throwing
    classifier exactly when the fetched summary has no result list and the
    fetched task list is not empty.  With synchronous re-renders the throw
    comes out of setCourseTasks: the catch fires the generic error and
    setTasksDetail is not called.  With batched updates the render of the
    final view throws.  Otherwise no notification fires, both executions
    end in the same state and its classifier returns.  After a rejected
    batch on a fresh page the classifier returns three empty buckets. *)
Theorem render_after_fetch (M : Moment) (C : Collation) (currentDate : string)
    (propsCourseId now : Z) :
  (forall (rerender : ViewState -> Completion unit)
     (summaryRequest : Settled StudentSummary)
     (tasksRequest : Settled (list CourseTask))
     (profileRequest : Settled ProfileInfo)
     (eventsRequest : Settled (list CourseEvent)),
     someRejected summaryRequest tasksRequest profileRequest eventsRequest ->
     renderTaskStatistics currentDate
       (view (fetchCallbackRendering rerender propsCourseId now summaryRequest
                tasksRequest profileRequest eventsRequest initialWorld))
     = Normal {| completed := []; notDone := []; future := [] |})
  /\ (forall (summary : StudentSummary) (fetchedTasks : list CourseTask)
        (statisticsCourses : ProfileInfo) (courseEvents : list CourseEvent)
        (w0 : World),
        courseTasks (view w0) = [] ->
        let synchronous :=
          fetchCallbackRendering (classifierRender currentDate) propsCourseId now
            (Fulfilled summary) (Fulfilled fetchedTasks)
            (Fulfilled statisticsCourses) (Fulfilled courseEvents) w0 in
        let batched :=
          fetchCallback propsCourseId now (Fulfilled summary) (Fulfilled fetchedTasks)
            (Fulfilled statisticsCourses) (Fulfilled courseEvents) w0 in
        (results summary = None /\ fetchedTasks <> [] ->
           log synchronous
           = log w0 ++ [SetLoading true; AwaitBatch;
                        MessageError genericError; SetLoading false]
           /\ tasksDetail (view synchronous) = tasksDetail (view w0)
           /\ renderTaskStatistics currentDate (view batched) = Throw undefinedFind)
        /\ (~ (results summary = None /\ fetchedTasks <> []) ->
              synchronous = batched
              /\ log batched = log w0 ++ [SetLoading true; AwaitBatch; SetLoading false]
              /\ exists stats,
                   renderTaskStatistics currentDate (view batched) = Normal stats)).
Proof.
  split.
  - intros rerender summaryRequest tasksRequest profileRequest eventsRequest Hrejected.
    unfold fetchCallbackRendering.
    destruct (promiseAll_rejected _ _ _ _ Hrejected) as (reason & ->).
    reflexivity.
  - intros summary fetchedTasks statisticsCourses courseEvents w0 Hnone
      synchronous batched.
    subst synchronous batched.
    unfold fetchCallbackRendering, fetchCallback. cbn [promiseAll].
    unfold fulfilledSetters. cbn [runSetters].
    rewrite (proj2 (classifierRender_outcome M currentDate _))
      by (simpl; rewrite Hnone; intros [_ H]; now apply H).
    rewrite (proj2 (classifierRender_outcome M currentDate _))
      by (simpl; rewrite Hnone; intros [_ H]; now apply H).
    split.
    + intros Hthrow.
      rewrite (proj1 (classifierRender_outcome M currentDate _)) by exact Hthrow.
      simpl. rewrite <- !app_assoc. repeat split.
      apply (taskStatistics_outcome M currentDate summary fetchedTasks). exact Hthrow.
    + intros Hnormal.
      rewrite (proj2 (classifierRender_outcome M currentDate _)) by exact Hnormal.
      rewrite (proj2 (classifierRender_outcome M currentDate _)) by exact Hnormal.
      split; [reflexivity|]. simpl. rewrite <- !app_assoc.
      split; [reflexivity|].
      apply (taskStatistics_outcome M currentDate summary fetchedTasks). exact Hnormal.
Qed.

Lemma render_after_fetch_witness :
  let w := @fetchCallbackRendering calendarMoment lexicographicCollation
             (@classifierRender calendarMoment "2024 01 10") 12 0
             (Fulfilled emptySummary) (Fulfilled [testScenarioTask 1 "Quiz" "url"])
             (Fulfilled (mkProfileInfo (Some [mkStudentStats 12
                [mkStudentTasksDetail "Quiz" (Value "ok") Null (Value 80)]])))
             (Fulfilled []) initialWorld in
  log w = [SetLoading true; AwaitBatch; MessageError genericError; SetLoading false]
  /\ tasksDetail (view w) = [].
Proof.
  intros w.
  destruct (proj2 (render_after_fetch calendarMoment lexicographicCollation
                     "2024 01 10" 12 0)
              emptySummary [testScenarioTask 1 "Quiz" "url"]
              (mkProfileInfo (Some [mkStudentStats 12
                 [mkStudentTasksDetail "Quiz" (Value "ok") Null (Value 80)]]))
              [] initialWorld eq_refl) as [Hthrow _].
  destruct Hthrow as (Hlog & Hdetail & _).
  { split; [reflexivity|discriminate]. }
  repeat split; assumption.
Defined.

(** X16: a task whose own type is "deadline" yields the same event twice,
    of type "deadline" and dated by the student end date. *)
Theorem deadline_task_duplicate_event (task : CourseTask) :
  task_type task = TaskTypes.deadline ->
  tasksToEvents [task]
  = [createCourseEventFromTask task TaskTypes.deadline;
     createCourseEventFromTask task TaskTypes.deadline]
  /\ dateTime (createCourseEventFromTask task TaskTypes.deadline)
     = orEmpty (studentEndDate task).
Proof.
  intros Htype. split; [|reflexivity].
  rewrite tasksToEvents_non_test by (rewrite Htype; discriminate).
  rewrite Htype. reflexivity.
Qed.

Lemma deadline_task_duplicate_event_witness :
  map typeAndDate (tasksToEvents [deadlineScenarioTask 2 "Task" "url"])
  = [("deadline", "2024-01-10"); ("deadline", "2024-01-10")].
Proof.
  rewrite (proj1 (deadline_task_duplicate_event
                    (deadlineScenarioTask 2 "Task" "url") eq_refl)).
  reflexivity.
Defined.
